(** * DeepLX-Worker: the translation request pipeline of [src/index.js]

    A shallow embedding of the worker's helper functions, of the cache-aware
    dispatcher [deeplxTranslate] and of the authentication gate of the
    worker's [fetch] entry point, followed by the properties of the
    specification that were checked against them.

    Conventions of the model.
    - A JavaScript string is a [string] holding its UTF-8 bytes.  The source
      only inspects ASCII characters (['i'], the unreserved URI characters,
      the JSON escapes, ['/']), and these never occur inside a multi-byte
      UTF-8 sequence.  [toUpperCase] is modelled on the ASCII letters, which
      covers language codes.
    - A JavaScript number that holds an integer is a [Z]; every integer the
      pipeline computes stays far below 2^53, where doubles are exact.  The
      remainder operator [%] is [Z.rem] (sign of the dividend).
    - [Math.random()] is a double of [0, 1), given by its exact rational
      value, and the product [Math.random() * 99999] is rounded to the
      nearest double as the source's multiplication is; [Date.now()] is an
      integer; both are read from an explicit [World], together with the
      backend.
    - The shared cache, the tasks handed to [ctx.waitUntil] and the trace of
      effects are threaded through the dispatcher as an explicit [State].
    - A cache key is the URL of the key request as the platform's URL
      parser serialises it, less its fragment.
    - An exception (a rejected promise of an [async] function) is the
      outcome [Raised]; reading a property of [undefined] raises. *)

From Stdlib Require Import ZArith QArith Qround Ascii String DecimalString Lia.
From stdpp Require Import base option list strings gmap.

Local Open Scope string_scope.
Local Open Scope list_scope.
Local Open Scope Z_scope.

(** String concatenation is left to compute on literals. *)
#[local] Arguments String.append !_ _ / : simpl nomatch.

(** ** JavaScript built-ins used by the source *)

Module JS.

(** The double-quote character. *)
Definition dquote : ascii := ascii_of_nat 34.

(** [s] between double quotes, without any escaping. *)
Definition quoted (s : string) : string :=
  String dquote (s +:+ String dquote EmptyString).

(** [c.toUpperCase()] on one ASCII character. *)
Definition upper_ascii (c : ascii) : ascii :=
  let n := nat_of_ascii c in
  if ((97 <=? n) && (n <=? 122))%nat then ascii_of_nat (n - 32) else c.

(** [s.toUpperCase()]. *)
Fixpoint toUpperCase (s : string) : string :=
  match s with
  | EmptyString => EmptyString
  | String c r => String (upper_ascii c) (toUpperCase r)
  end.

(** [s.startsWith(p)]. *)
Definition startsWith (s p : string) : bool := String.prefix p s.

(** The suffix of [s] after its first [n] characters. *)
Fixpoint drop_string (n : nat) (s : string) : string :=
  match n, s with
  | O, _ => s
  | S _, EmptyString => EmptyString
  | S k, String _ r => drop_string k r
  end.

(** [s.split(sep)] for a one-character separator. *)
Fixpoint split (sep : ascii) (s : string) : list string :=
  match s with
  | EmptyString => [EmptyString]
  | String c r =>
      if Ascii.eqb c sep then EmptyString :: split sep r
      else match split sep r with
           | h :: t => String c h :: t
           | [] => [String c EmptyString]
           end
  end.

(** [s.replace(pat, rep)] for a string pattern: only the first occurrence is
    replaced.  The replacement strings of the source hold no ['$'], so no
    replacement pattern is interpreted. *)
Fixpoint replace (pat rep s : string) : string :=
  if String.prefix pat s then rep +:+ drop_string (String.length pat) s
  else match s with
       | EmptyString => EmptyString
       | String c r => String c (replace pat rep r)
       end.

(** Characters that [encodeURIComponent] leaves alone:
    [A-Z a-z 0-9 - _ . ! ~ * ' ( )]. *)
Definition uri_unreserved (c : ascii) : bool :=
  let n := nat_of_ascii c in
  (((65 <=? n) && (n <=? 90)) || ((97 <=? n) && (n <=? 122))
   || ((48 <=? n) && (n <=? 57))
   || (n =? 45) || (n =? 95) || (n =? 46) || (n =? 33) || (n =? 126)
   || (n =? 42) || (n =? 39) || (n =? 40) || (n =? 41))%nat.

Definition hex_upper (n : nat) : ascii :=
  ascii_of_nat (if (n <? 10)%nat then 48 + n else 55 + n).

Definition hex_lower (n : nat) : ascii :=
  ascii_of_nat (if (n <? 10)%nat then 48 + n else 87 + n).

(** The percent-escape of one byte: ["%XX"], upper-case hexadecimal. *)
Definition percent_byte (c : ascii) : string :=
  let n := nat_of_ascii c in
  String "%" (String (hex_upper (n / 16)) (String (hex_upper (n mod 16)) EmptyString)).

(** [encodeURIComponent(s)] on the UTF-8 bytes of [s]. *)
Fixpoint encodeURIComponent (s : string) : string :=
  match s with
  | EmptyString => EmptyString
  | String c r =>
      if uri_unreserved c then String c (encodeURIComponent r)
      else percent_byte c +:+ encodeURIComponent r
  end.

(** *** The URL of [new Request(url)]

    The URL parser of the platform (URL Standard) on a URL of the fixed
    origin [https://deeplx.cache]: [tail] is what follows the host and
    starts with ['/'].  Tabs and newlines are dropped, a ['?'] opens the
    query and a ['#'] the fragment, the path is cut into segments at ['/']
    and ['\'], dot segments are resolved, and the characters of each
    percent-encode set are escaped. *)

Definition tab_or_newline (c : ascii) : bool :=
  let n := nat_of_ascii c in ((n =? 9) || (n =? 10) || (n =? 13))%nat.

Fixpoint remove_tab_newline (s : string) : string :=
  match s with
  | EmptyString => EmptyString
  | String c r =>
      if tab_or_newline c then remove_tab_newline r
      else String c (remove_tab_newline r)
  end.

(** The percent-encode sets of the URL Standard. *)
Definition c0_control_set (c : ascii) : bool :=
  let n := nat_of_ascii c in ((n <? 32) || (126 <? n))%nat.

Definition query_set (c : ascii) : bool :=
  let n := nat_of_ascii c in
  (c0_control_set c || (n =? 32) || (n =? 34) || (n =? 35) || (n =? 60) || (n =? 62))%nat.

Definition special_query_set (c : ascii) : bool :=
  (query_set c || (nat_of_ascii c =? 39)%nat).

Definition path_set (c : ascii) : bool :=
  let n := nat_of_ascii c in
  (query_set c || (n =? 63) || (n =? 94) || (n =? 96) || (n =? 123) || (n =? 125))%nat.

(** Percent-encoding of the bytes of [s] that lie in [set]. *)
Fixpoint percent_encode (set : ascii -> bool) (s : string) : string :=
  match s with
  | EmptyString => EmptyString
  | String c r =>
      if set c then percent_byte c +:+ percent_encode set r
      else String c (percent_encode set r)
  end.

(** [s] up to its first character in [stop], and that character with what
    follows it, if there is one. *)
Fixpoint break_at (stop : ascii -> bool) (s : string) : string * option (ascii * string) :=
  match s with
  | EmptyString => (EmptyString, None)
  | String c r =>
      if stop c then (EmptyString, Some (c, r))
      else let '(before, after) := break_at stop r in (String c before, after)
  end.

(** [s] cut at every character in [sep]. *)
Fixpoint split_on (sep : ascii -> bool) (s : string) : list string :=
  match s with
  | EmptyString => [EmptyString]
  | String c r =>
      if sep c then EmptyString :: split_on sep r
      else match split_on sep r with
           | h :: t => String c h :: t
           | [] => [String c EmptyString]
           end
  end.

Definition path_separator (c : ascii) : bool :=
  let n := nat_of_ascii c in ((n =? 47) || (n =? 92))%nat.

Definition query_or_fragment_start (c : ascii) : bool :=
  let n := nat_of_ascii c in ((n =? 63) || (n =? 35))%nat.

Definition fragment_start (c : ascii) : bool := (nat_of_ascii c =? 35)%nat.

(** [buffer] without a leading ["."] or ["%2e"] (in either case), if it
    starts with one. *)
Definition strip_dot (buffer : string) : option string :=
  match buffer with
  | String "." r => Some r
  | String "%" (String "2" (String "e" r)) => Some r
  | String "%" (String "2" (String "E" r)) => Some r
  | _ => None
  end.

(** A single-dot path segment: ["."] or ["%2e"]. *)
Definition is_single_dot (buffer : string) : bool :=
  match strip_dot buffer with
  | Some EmptyString => true
  | _ => false
  end.

(** A double-dot path segment: [".."], [".%2e"], ["%2e."] or ["%2e%2e"]. *)
Definition is_double_dot (buffer : string) : bool :=
  match strip_dot buffer with
  | Some r => is_single_dot r
  | None => false
  end.

(** The path state over the segments still to read; [path] is the path
    built so far, last segment first.  The last segment of the input is
    followed by the end of the path, the others by a separator. *)
Fixpoint resolve_segments (segments : list string) (path : list string) : list string :=
  match segments with
  | [] => rev path
  | [seg] =>
      let buffer := percent_encode path_set seg in
      if is_double_dot buffer then rev (EmptyString :: tl path)
      else if is_single_dot buffer then rev (EmptyString :: path)
      else rev (buffer :: path)
  | seg :: rest =>
      let buffer := percent_encode path_set seg in
      if is_double_dot buffer then resolve_segments rest (tl path)
      else if is_single_dot buffer then resolve_segments rest path
      else resolve_segments rest (buffer :: path)
  end.

(** The path serialised: every segment behind a ['/']. *)
Fixpoint serialize_path (path : list string) : string :=
  match path with
  | [] => EmptyString
  | seg :: rest => String "/" seg +:+ serialize_path rest
  end.

(** The serialised path and query of the parsed [tail].  The fragment is
    left out: the cache compares the URLs of requests without their
    fragments. *)
Definition normalize_tail (tail : string) : string :=
  let input := remove_tab_newline tail in
  let '(path_part, after_path) := break_at query_or_fragment_start input in
  let path := resolve_segments (split_on path_separator (drop_string 1 path_part)) [] in
  serialize_path path +:+
  match after_path with
  | None => EmptyString
  | Some (c, rest) =>
      if fragment_start c then EmptyString
      else
        let '(query, _) := break_at fragment_start rest in
        String "?" (percent_encode special_query_set query)
  end.

(** [String(n)] for an integer [n]. *)
Definition string_of_Z (n : Z) : string :=
  NilEmpty.string_of_int (Z.to_int n).

(** The JSON escape of one byte inside a string literal. *)
Definition json_escape (c : ascii) : string :=
  let n := nat_of_ascii c in
  if (n =? 34)%nat then String "\" (String dquote EmptyString)
  else if (n =? 92)%nat then "\\"
  else if (n =? 8)%nat then "\b"
  else if (n =? 12)%nat then "\f"
  else if (n =? 10)%nat then "\n"
  else if (n =? 13)%nat then "\r"
  else if (n =? 9)%nat then "\t"
  else if (n <? 32)%nat then
    "\u00" +:+ String (hex_lower (n / 16)) (String (hex_lower (n mod 16)) EmptyString)
  else String c EmptyString.

Fixpoint json_escape_string (s : string) : string :=
  match s with
  | EmptyString => EmptyString
  | String c r => json_escape c +:+ json_escape_string r
  end.

(** [JSON.stringify(s)] for a string [s]. *)
Definition json_string (s : string) : string :=
  quoted (json_escape_string s).

End JS.

(** ** Double-precision arithmetic

    Doubles are given by their exact rational values.  Only what the
    source computes with non-integers is modelled: the rounding of a
    non-negative real (below [2^1024], where no overflow occurs) to the
    nearest double, ties to even, and with it the product of two
    non-negative doubles. *)

Module Double.

(** [2^z] for an integer [z] of either sign. *)
Definition pow2 (z : Z) : Q :=
  if 0 <=? z then inject_Z (2 ^ z) else 1 # Z.to_pos (2 ^ (- z)).

(** The binary exponent [k] of a positive [x]: [2^k <= x < 2^(k+1)]. *)
Definition exponent (x : Q) : Z :=
  if Qle_bool 1 x then Z.log2 (Qfloor x) else - Z.log2_up (Qceiling (/ x)).

(** The nearest integer, ties to even. *)
Definition round_half_even (s : Q) : Z :=
  let f := Qfloor s in
  match (s - inject_Z f ?= 1 # 2)%Q with
  | Lt => f
  | Gt => f + 1
  | Eq => if Z.even f then f else f + 1
  end.

(** [x] rounded to 53 significant bits, or to a multiple of [2^-1074] in
    the subnormal range. *)
Definition round (x : Q) : Q :=
  if Qle_bool x 0 then 0%Q
  else
    let e := Z.max (exponent x - 52) (-1074) in
    (inject_Z (round_half_even (x / pow2 e)) * pow2 e)%Q.

(** [a * b] on doubles. *)
Definition mul (a b : Q) : Q := round (a * b).

(** The double [m * 2^-e], for a significand [0 <= m < 2^53] and
    [0 <= e <= 1074]: these are the doubles of [0, 2^53). *)
Definition make (m e : Z) : Q := m # Z.to_pos (2 ^ e).

End Double.

(** ** Helper functions (ported from Go) *)

(** [getICount]: the number of ['i'] characters of the text, computed as
    the source does, [translateText.split('i').length - 1]. *)
Definition getICount (translateText : string) : Z :=
  Z.of_nat (List.length (JS.split "i" translateText)) - 1.

(** [getRandomNumber]: [random] is the double returned by [Math.random()];
    the product is the double product, the sum and the last product are
    exact on integers of this size. *)
Definition getRandomNumber (random : Q) : Z :=
  let rand := Qfloor (Double.mul random (inject_Z 99999)) + 100000 in
  rand * 1000.

(** [getTimeStamp]: [now] is the value returned by [Date.now()]. *)
Definition getTimeStamp (now : Z) (iCount : Z) : Z :=
  let ts := now in
  if negb (iCount =? 0) then
    let iCount := iCount + 1 in
    ts - Z.rem ts iCount + iCount
  else ts.

(** The three literals of [handlerBodyMethod]: the key prefix searched for,
    and its two rewritings. *)
Definition method_key : string :=
  JS.quoted "method" +:+ ":" +:+ String JS.dquote EmptyString.
Definition method_spaced : string :=
  JS.quoted "method" +:+ " : " +:+ String JS.dquote EmptyString.
Definition method_single : string :=
  JS.quoted "method" +:+ ": " +:+ String JS.dquote EmptyString.

(** The test [(random + 5) % 29 === 0 || (random + 3) % 13 === 0]. *)
Definition calc (random : Z) : bool :=
  (Z.rem (random + 5) 29 =? 0) || (Z.rem (random + 3) 13 =? 0).

Definition handlerBodyMethod (random : Z) (body : string) : string :=
  if calc random then JS.replace method_key method_spaced body
  else JS.replace method_key method_single body.

(** ** Data model *)

(** The object returned by [deeplxTranslate]; a key that the object does not
    carry is [None]. *)
Module Result.
Record t : Type := mk {
  code : Z;
  message : option string;
  id : option Z;
  data : option string;
  alternatives : option (list string);
  source_lang : option string;
  target_lang : option string;
  method : option string;
  cached : bool
}.

(** An error result: [{ code, message, cached: false }]. *)
Definition failure (c : Z) (msg : string) : t :=
  mk c (Some msg) None None None None None None false.

(** [result.cached = v]. *)
Definition set_cached (v : bool) (r : t) : t :=
  mk (code r) (message r) (id r) (data r) (alternatives r)
     (source_lang r) (target_lang r) (method r) v.
End Result.

(** The JSON-RPC envelope [postData]. *)
Record Envelope : Type := {
  env_jsonrpc : string;
  env_method : string;
  env_id : Z;
  env_splitting : string;
  env_source_lang_user_selected : string;
  env_target_lang : string;
  env_text : string;
  env_requestAlternatives : Z;
  env_timestamp : Z
}.

(** [JSON.stringify(postData)]: keys in insertion order, no white space. *)
Definition stringify_envelope (e : Envelope) : string :=
  let q := JS.quoted in
  "{" +:+ q "jsonrpc" +:+ ":" +:+ JS.json_string (env_jsonrpc e)
  +:+ "," +:+ q "method" +:+ ":" +:+ JS.json_string (env_method e)
  +:+ "," +:+ q "id" +:+ ":" +:+ JS.string_of_Z (env_id e)
  +:+ "," +:+ q "params" +:+ ":{"
  +:+ q "splitting" +:+ ":" +:+ JS.json_string (env_splitting e)
  +:+ "," +:+ q "lang" +:+ ":{"
  +:+ q "source_lang_user_selected" +:+ ":"
  +:+ JS.json_string (env_source_lang_user_selected e)
  +:+ "," +:+ q "target_lang" +:+ ":" +:+ JS.json_string (env_target_lang e)
  +:+ "}," +:+ q "texts" +:+ ":[{"
  +:+ q "text" +:+ ":" +:+ JS.json_string (env_text e)
  +:+ "," +:+ q "requestAlternatives" +:+ ":"
  +:+ JS.string_of_Z (env_requestAlternatives e)
  +:+ "}]," +:+ q "timestamp" +:+ ":" +:+ JS.string_of_Z (env_timestamp e)
  +:+ "}}".

(** The request handed to the platform's [fetch]. *)
Record FetchRequest : Type := {
  req_url : string;
  req_method : string;
  req_headers : list (string * string);
  req_body : string
}.

(** The backend's JSON payload, as far as the dispatcher reads it.  A key
    that is absent (or holds a falsy value) is [None]. *)
Record Alternative : Type := { alt_text : string }.
Record TextEntry : Type := {
  text : string;
  text_alternatives : option (list Alternative)
}.
Record ResultObj : Type := {
  texts : option (list TextEntry);
  lang : option string
}.
Record ErrorObj : Type := { error_message : option string }.
Record Payload : Type := {
  error : option ErrorObj;
  result : option ResultObj
}.

(** What [response.json()] gives: the payload, or a rejection. *)
Inductive Parsed : Type :=
  | JsonValue (resultJson : Payload)
  | JsonError (msg : string).

(** The backend's response: its status, [response.text()] and
    [response.json()]. *)
Record FetchResponse : Type := {
  status : Z;
  body_text : string;
  body_json : Parsed
}.

(** [response.ok]: the status is in the range 200-299. *)
Definition ok (response : FetchResponse) : bool :=
  (200 <=? status response) && (status response <=? 299).

(** [await fetch(...)] either yields a response or throws. *)
Inductive FetchOutcome : Type :=
  | Responded (response : FetchResponse)
  | Threw (msg : string).

(** What one call of the dispatcher reads from outside. *)
Record World : Type := {
  now : Z;
  random : Q;
  backend : FetchRequest -> FetchOutcome
}.

(** The response stored in the cache: the JSON document it carries (given
    by the value it denotes) and its headers. *)
Record CacheEntry : Type := {
  entry_body : Result.t;
  entry_headers : list (string * string)
}.

Inductive Event : Type :=
  | CacheMatch (key : string)
  | BackendCall (request : FetchRequest)
  | CachePut (key : string) (response : CacheEntry).

(** The shared cache [caches.default] keyed by request URL, the stores
    handed to [ctx.waitUntil] that have not completed yet (oldest first),
    and the effects performed so far (oldest first).  An entry stays in the
    cache until a store under the same key replaces it: the platform's
    expiry after [max-age] and its evictions are not part of the model. *)
Record State : Type := {
  cache : gmap string CacheEntry;
  pending : list (string * CacheEntry);
  trace : list Event
}.

Definition log (e : Event) (st : State) : State :=
  {| cache := cache st; pending := pending st; trace := trace st ++ [e] |}.

(** [await cache.match(cacheKey)]. *)
Definition cache_match (key : string) (st : State) : option CacheEntry * State :=
  (cache st !! key, log (CacheMatch key) st).

(** [ctx.waitUntil(cache.put(cacheKey, response))]: the store is started
    and left to complete later. *)
Definition waitUntil_put (key : string) (response : CacheEntry) (st : State) : State :=
  {| cache := cache st;
     pending := pending st ++ [(key, response)];
     trace := trace st ++ [CachePut key response] |}.

(** The detached stores complete, in the order they were started. *)
Definition settle (st : State) : State :=
  {| cache := foldl (fun c kv => <[fst kv := snd kv]> c) (cache st) (pending st);
     pending := [];
     trace := trace st |}.

(** ** The dispatcher *)

(** [(!sourceLang || sourceLang === 'auto') ? 'EN' : sourceLang.toUpperCase()]. *)
Definition finalSourceLang (sourceLang : option string) : string :=
  match sourceLang with
  | None => "EN"
  | Some s =>
      if String.eqb s EmptyString || String.eqb s "auto" then "EN"
      else JS.toUpperCase s
  end.

(** [targetLang.toUpperCase()]. *)
Definition finalTargetLang (targetLang : string) : string :=
  JS.toUpperCase targetLang.


(** The cache key: the URL of the request [new Request(cacheURL ...)], as
    the platform's URL parser leaves it and as the cache compares it, that
    is without its fragment. *)
Definition cacheKey (finalSourceLang finalTargetLang translateText : string) : string :=
  "https://deeplx.cache" +:+
  JS.normalize_tail ("/" +:+ finalSourceLang +:+ "/" +:+ finalTargetLang
                     +:+ "/" +:+ JS.encodeURIComponent translateText).

Definition postData (id : Z) (finalSourceLang finalTargetLang translateText : string)
    (timestamp : Z) : Envelope :=
  {| env_jsonrpc := "2.0";
     env_method := "LMT_handle_texts";
     env_id := id;
     env_splitting := "newlines";
     env_source_lang_user_selected := finalSourceLang;
     env_target_lang := finalTargetLang;
     env_text := translateText;
     env_requestAlternatives := 3;
     env_timestamp := timestamp |}.

Definition base_headers : list (string * string) :=
  [ ("Content-Type", "application/json");
    ("Accept", "*/*");
    ("x-app-os-name", "iOS");
    ("x-app-os-version", "16.3.1");
    ("Accept-Language", "en-US,en;q=0.9");
    ("Accept-Encoding", "gzip, deflate, br");
    ("User-Agent", "DeepL-iOS/2.9.1 iOS 16.3.1 (iPad14,1)");
    ("x-app-device", "iPad14,1");
    ("x-app-build", "514288");
    ("x-app-version", "2.9.1") ].

(** The header bundle, with the session cookie when [dlSession] is not
    empty. *)
Definition headers (dlSession : string) : list (string * string) :=
  if String.eqb dlSession EmptyString then base_headers
  else base_headers ++ [("Cookie", "dl_session=" +:+ dlSession)].

Definition backendRequest (id : Z) (finalSourceLang finalTargetLang translateText : string)
    (timestamp : Z) (dlSession : string) : FetchRequest :=
  let postStr :=
    stringify_envelope (postData id finalSourceLang finalTargetLang translateText timestamp) in
  let postStr := handlerBodyMethod id postStr in
  {| req_url := "https://www2.deepl.com/jsonrpc";
     req_method := "POST";
     req_headers := headers dlSession;
     req_body := postStr |}.

(** A value spliced into a template literal: an absent one prints as
    [undefined]. *)
Definition template (v : option string) : string :=
  match v with
  | Some s => s
  | None => "undefined"
  end.

(** [texts[0].alternatives?.map(alt => alt.text) || []]. *)
Definition alternatives_of (t0 : TextEntry) : list string :=
  match text_alternatives t0 with
  | Some alts => map alt_text alts
  | None => []
  end.

Definition cacheableResponse (finalResult : Result.t) : CacheEntry :=
  {| entry_body := finalResult;
     entry_headers := [ ("Content-Type", "application/json");
                        ("Cache-Control", "public, max-age=3600") ] |}.

(** The body of the [try] block once the backend has answered [response]:
    the result, and whether it is the success result. *)
Definition interpret (response : FetchResponse) (id : Z) (finalTargetLang dlSession : string)
    : Result.t * bool :=
  if status response =? 429 then
    (Result.failure 429
       "Too many requests, your IP has been blocked by DeepL temporarily.", false)
  else if negb (ok response) then
    (Result.failure (status response) ("DeepL API error: " +:+ body_text response), false)
  else
    match body_json response with
    | JsonError msg =>
        (Result.failure 500 ("An unexpected error occurred: " +:+ msg), false)
    | JsonValue resultJson =>
        match error resultJson with
        | Some e =>
            (Result.failure 500
               ("DeepL API returned an error: " +:+ template (error_message e)), false)
        | None =>
            match result resultJson with
            | Some {| texts := Some (t0 :: _); lang := l |} =>
                (Result.mk 200 None (Some id) (Some (text t0))
                   (Some (alternatives_of t0)) l (Some finalTargetLang)
                   (Some (if String.eqb dlSession EmptyString then "Free" else "Pro"))
                   false, true)
            | _ =>
                (Result.failure 500 "Translation failed, no text returned.", false)
            end
        end
    end.

(** [deeplxTranslate(sourceLang, targetLang, translateText, dlSession,
    useCache, ctx)], run in world [w] from state [st]. *)
Definition deeplxTranslate (w : World) (sourceLang : option string) (targetLang : string)
    (translateText : option string) (dlSession : string) (useCache : bool)
    (st : State) : Result.t * State :=
  match translateText with
  | None => (Result.failure 400 "No text to translate.", st)
  | Some translateText =>
    if String.eqb translateText EmptyString then
      (Result.failure 400 "No text to translate.", st)
    else
      let finalSourceLang := finalSourceLang sourceLang in
      let finalTargetLang := finalTargetLang targetLang in
      let cacheKey := cacheKey finalSourceLang finalTargetLang translateText in
      let '(cachedResponse, st) :=
        if useCache then cache_match cacheKey st else (None, st) in
      match cachedResponse with
      | Some cachedResponse =>
          (Result.set_cached true (entry_body cachedResponse), st)
      | None =>
          let id := getRandomNumber (random w) in
          let iCount := getICount translateText in
          let timestamp := getTimeStamp (now w) iCount in
          let request :=
            backendRequest id finalSourceLang finalTargetLang translateText
              timestamp dlSession in
          let st := log (BackendCall request) st in
          match backend w request with
          | Threw msg =>
              (Result.failure 500 ("An unexpected error occurred: " +:+ msg), st)
          | Responded response =>
              let '(finalResult, success) :=
                interpret response id finalTargetLang dlSession in
              if success && useCache then
                (finalResult, waitUntil_put cacheKey (cacheableResponse finalResult) st)
              else (finalResult, st)
          end
      end
  end.

(** ** The worker's entry point and its authentication gate *)

(** A computation that returns or throws. *)
Inductive Outcome (A : Type) : Type :=
  | Returned (a : A)
  | Raised.
Arguments Returned {A} a.
Arguments Raised {A}.

Record Env : Type := {
  TOKEN : option string;
  DL_SESSION : option string
}.

(** The request as the platform hands it to [fetch]: the path of its URL,
    the [token] parameter of its query string and its [Authorization]
    header; an absent parameter or header is [None].  This object has no
    [query] property. *)
Record Incoming : Type := {
  url_pathname : string;
  url_token : option string;
  header_authorization : option string
}.

(** The request object as [authMiddleware] reads it.  [query] is its
    [query] property: [None] when the property is undefined, [Some q] when
    a router has parsed the query string into it, [q] being its [token]. *)
Record Request : Type := {
  query : option (option string);
  authorization : option string
}.

(** What [authMiddleware] finds on the object that [fetch] passes on: the
    headers of the platform's request, and no [query] property. *)
Definition as_received (request : Incoming) : Request :=
  {| query := None; authorization := header_authorization request |}.

Record HttpResponse : Type := {
  http_status : Z;
  http_headers : list (string * string);
  http_body : string
}.

(** The response of a failed check. *)
Definition invalid_token : HttpResponse :=
  {| http_status := 401;
     http_headers := [("Content-Type", "application/json")];
     http_body := "{" +:+ JS.quoted "code" +:+ ":401," +:+ JS.quoted "message"
                  +:+ ":" +:+ JS.quoted "Invalid access token" +:+ "}" |}.

Definition option_string_eqb (a b : option string) : bool :=
  match a, b with
  | None, None => true
  | Some x, Some y => String.eqb x y
  | _, _ => false
  end.

(** [authMiddleware]: reading [request.query.token] throws when
    [request.query] is undefined; [Returned None] is the [undefined] of a
    passed check. *)
Definition authMiddleware (request : Request) (env : Env) : Outcome (option HttpResponse) :=
  match query request with
  | None => Raised
  | Some tokenInQuery =>
      let authHeader := authorization request in
      let tokenInHeader :=
        match authHeader with
        | None => EmptyString
        | Some h =>
            if String.eqb h EmptyString then EmptyString
            else match JS.split " " h with
                 | [scheme; token] =>
                     if String.eqb scheme "Bearer" || String.eqb scheme "DeepL-Auth-Key"
                     then token else EmptyString
                 | _ => EmptyString
                 end
        end in
      if negb (option_string_eqb tokenInQuery (TOKEN env))
         && negb (option_string_eqb (Some tokenInHeader) (TOKEN env))
      then Returned (Some invalid_token)
      else Returned None
  end.

(** [env.TOKEN !== undefined && env.TOKEN !== '']. *)
Definition isPrivate (env : Env) : bool :=
  match TOKEN env with
  | None => false
  | Some t => negb (String.eqb t EmptyString)
  end.

(** The condition under which [fetch] runs [authMiddleware]; [&&] binds
    tighter than [||]. *)
Definition auth_applies (env : Env) (request : Incoming) : bool :=
  (isPrivate env && JS.startsWith (url_pathname request) "/translate")
  || JS.startsWith (url_pathname request) "/v1/translate"
  || JS.startsWith (url_pathname request) "/v2/translate".

(** [fetch(request, env, ctx)]; [handle] stands for [router.handle], which
    dispatches to the endpoints.  [authMiddleware] is called on the request
    as received, before the router has seen it. *)
Definition fetch (handle : Incoming -> Env -> Outcome HttpResponse) (request : Incoming)
    (env : Env) : Outcome HttpResponse :=
  if auth_applies env request then
    match authMiddleware (as_received request) env with
    | Raised => Raised
    | Returned (Some authResult) => Returned authResult
    | Returned None => handle request env
    end
  else handle request env.

(** ** Notions used to state the properties *)

(** [pat] occurs in [s]. *)
Definition occurs (pat s : string) : Prop :=
  exists pre post, s = pre +:+ pat +:+ post.

(** [s] is [pre], then its first occurrence of [pat], then [post]. *)
Definition first_occurrence (pat s pre post : string) : Prop :=
  s = pre +:+ pat +:+ post /\
  forall pre' post', s = pre' +:+ pat +:+ post' ->
    (String.length pre <= String.length pre')%nat.

(** The number of characters [c] in [s]. *)
Fixpoint count_char (c : ascii) (s : string) : nat :=
  match s with
  | EmptyString => O
  | String a r => if Ascii.eqb a c then S (count_char c r) else count_char c r
  end.


(** The four ways in which an answered backend call misses the success
    branch, in the words of the specification, each with the status code
    prescribed for it. *)
Inductive failure_branch (response : FetchResponse) : Z -> Prop :=
  | throttled :
      status response = 429 ->
      failure_branch response 429
  | http_error :
      status response <> 429 ->
      ~ (200 <= status response <= 299) ->
      failure_branch response (status response)
  | payload_error (resultJson : Payload) (e : ErrorObj) :
      200 <= status response <= 299 ->
      body_json response = JsonValue resultJson ->
      error resultJson = Some e ->
      failure_branch response 500
  | no_texts (resultJson : Payload) :
      200 <= status response <= 299 ->
      body_json response = JsonValue resultJson ->
      error resultJson = None ->
      (result resultJson = None \/
       exists res, result resultJson = Some res /\
                   (texts res = None \/ texts res = Some [])) ->
      failure_branch response 500.



(** The serialised envelope up to its [method] key. *)
Definition envelope_head : string :=
  "{" +:+ JS.quoted "jsonrpc" +:+ ":" +:+ JS.quoted "2.0" +:+ ",".

(** The cache key and the backend request of a call of the dispatcher. *)
Definition keyOf (sourceLang : option string) (targetLang translateText : string) : string :=
  cacheKey (finalSourceLang sourceLang) (finalTargetLang targetLang) translateText.

Definition requestOf (w : World) (sourceLang : option string)
    (targetLang translateText dlSession : string) : FetchRequest :=
  backendRequest (getRandomNumber (random w)) (finalSourceLang sourceLang)
    (finalTargetLang targetLang) translateText
    (getTimeStamp (now w) (getICount translateText)) dlSession.

(** A state with an empty cache, no store in flight and no effect yet. *)
Definition fresh : State := {| cache := ∅; pending := []; trace := [] |}.

(** A backend answer used to exercise the dispatcher: one translated text
    with one alternative. *)
Definition sample_payload : Payload :=
  {| error := None;
     result := Some {| texts := Some [ {| text := "Hallo Welt";
                                          text_alternatives :=
                                            Some [ {| alt_text := "Hallo, Welt" |} ] |} ];
                       lang := Some "EN" |} |}.

Definition sample_response (st : Z) : FetchResponse :=
  {| status := st; body_text := "{}"; body_json := JsonValue sample_payload |}.

(** A world whose backend answers every request with [response]. *)
Definition sample_world (response : FetchResponse) : World :=
  {| now := 1700000000123; random := 1 # 2; backend := fun _ => Responded response |}.

(** A small body that holds the key prefix once, split at that prefix. *)
Definition sample_post : string := "LMT_handle_texts" +:+ String JS.dquote "}".
Definition sample_body : string := "{" +:+ method_key +:+ sample_post.

(** ** The endpoints *)

(** [arr.join(sep)] for an array of strings. *)
Fixpoint join (sep : string) (l : list string) : string :=
  match l with
  | [] => EmptyString
  | [x] => x
  | x :: r => x +:+ sep +:+ join sep r
  end.

(** The line feed of ['\n']. *)
Definition newline : string := String (ascii_of_nat 10) EmptyString.

(** [deeplxTranslate] called with a target language that may be absent:
    [targetLang.toUpperCase()] throws on [undefined], after the text check
    and before any effect. *)
Definition translateWith (w : World) (sourceLang targetLang translateText : option string)
    (dlSession : string) (useCache : bool) (st : State) : Outcome (Result.t * State) :=
  match targetLang with
  | Some targetLang =>
      Returned (deeplxTranslate w sourceLang targetLang translateText dlSession useCache st)
  | None =>
      match translateText with
      | None => Returned (Result.failure 400 "No text to translate.", st)
      | Some t =>
          if String.eqb t EmptyString
          then Returned (Result.failure 400 "No text to translate.", st)
          else Raised
      end
  end.

(** The [text] key of a request body: a string, or for [/v2/translate] an
    array of strings. *)
Inductive TextField : Type :=
  | TextString (s : string)
  | TextArray (items : list string).

(** The parsed JSON body of [/translate] and [/v1/translate]; an absent key
    is [None]. *)
Record TranslateBody : Type := {
  in_text : option string;
  in_source_lang : option string;
  in_target_lang : option string;
  in_cache : option bool
}.

(** The parsed JSON body of [/v2/translate]. *)
Record OfficialBody : Type := {
  v2_text : option TextField;
  v2_target_lang : option string;
  v2_cache : option bool
}.

(** The JSON document of a reply, given by the value it denotes. *)
Inductive ReplyBody : Type :=
  | SimpleShape (result : Result.t)
  | OfficialShape (detected_source_language : option string) (text : option string)
      (cached : bool)
  | MessageShape (code : Z) (message : string).

Record Reply : Type := {
  reply_status : Z;
  reply_headers : list (string * string);
  reply_body : ReplyBody
}.

Definition json_headers : list (string * string) :=
  [("Content-Type", "application/json")].

(** [cache !== undefined ? cache : byDefault]. *)
Definition cacheChoice (cache : option bool) (byDefault : bool) : bool :=
  match cache with
  | Some c => c
  | None => byDefault
  end.

(** The reply every endpoint builds from a result in the simple shape. *)
Definition simpleReply (result : Result.t) : Reply :=
  {| reply_status := Result.code result;
     reply_headers := json_headers;
     reply_body := SimpleShape result |}.

(** [handleTranslateRequest], the handler of [POST /translate], on the
    parsed body. *)
Definition handleTranslateRequest (w : World) (body : TranslateBody) (env : Env)
    (st : State) : Outcome (Reply * State) :=
  let useCache := cacheChoice (in_cache body) (negb (isPrivate env)) in
  match translateWith w (in_source_lang body) (in_target_lang body) (in_text body)
          EmptyString useCache st with
  | Raised => Raised
  | Returned (result, st) => Returned (simpleReply result, st)
  end.

(** [env.DL_SESSION || '']. *)
Definition sessionOf (env : Env) : string :=
  match DL_SESSION env with
  | Some s => s
  | None => EmptyString
  end.

(** The handler of [POST /v1/translate]. *)
Definition v1Translate (w : World) (body : TranslateBody) (env : Env)
    (st : State) : Outcome (Reply * State) :=
  let dlSession := sessionOf env in
  if String.eqb dlSession EmptyString then
    Returned ({| reply_status := 401;
                 reply_headers := [];
                 reply_body :=
                   MessageShape 401 "DL_SESSION is not configured in worker environment." |},
              st)
  else
    let useCache := cacheChoice (in_cache body) false in
    match translateWith w (in_source_lang body) (in_target_lang body) (in_text body)
            dlSession useCache st with
    | Raised => Raised
    | Returned (result, st) => Returned (simpleReply result, st)
    end.

(** [Array.isArray(text) ? text.join('\n') : text]. *)
Definition joinedText (text : option TextField) : option string :=
  match text with
  | Some (TextArray items) => Some (join newline items)
  | Some (TextString s) => Some s
  | None => None
  end.

(** The handler of [POST /v2/translate]. *)
Definition v2Translate (w : World) (body : OfficialBody) (env : Env)
    (st : State) : Outcome (Reply * State) :=
  let useCache := cacheChoice (v2_cache body) (negb (isPrivate env)) in
  let translateText := joinedText (v2_text body) in
  match translateWith w (Some "auto") (v2_target_lang body) translateText
          EmptyString useCache st with
  | Raised => Raised
  | Returned (result, st) =>
      if Result.code result =? 200 then
        Returned ({| reply_status := 200;
                     reply_headers := json_headers;
                     reply_body := OfficialShape (Result.source_lang result)
                                     (Result.data result) (Result.cached result) |},
                  st)
      else Returned (simpleReply result, st)
  end.

(** ** Notions used to state the further properties *)

(** The state once the backend has been asked: the lookup, if the cache is
    in use, then the call. *)
Definition asked (w : World) (sourceLang : option string)
    (targetLang translateText dlSession : string) (useCache : bool) (st : State) : State :=
  log (BackendCall (requestOf w sourceLang targetLang translateText dlSession))
    (if useCache
     then log (CacheMatch (keyOf sourceLang targetLang translateText)) st
     else st).

(** The ways a call of the dispatcher can go: rejected for want of a text,
    served from the cache, failed on a throwing backend, or answered. *)
Inductive outcome_of (w : World) (sourceLang : option string) (targetLang dlSession : string)
    (useCache : bool) (st : State) : option string -> Result.t -> State -> Prop :=
  | out_rejected (translateText : option string) :
      translateText = None \/ translateText = Some EmptyString ->
      outcome_of w sourceLang targetLang dlSession useCache st translateText
        (Result.failure 400 "No text to translate.") st
  | out_hit (t : string) (e : CacheEntry) :
      t <> EmptyString -> useCache = true ->
      cache st !! keyOf sourceLang targetLang t = Some e ->
      outcome_of w sourceLang targetLang dlSession useCache st (Some t)
        (Result.set_cached true (entry_body e))
        (log (CacheMatch (keyOf sourceLang targetLang t)) st)
  | out_threw (t msg : string) :
      t <> EmptyString ->
      (useCache = true -> cache st !! keyOf sourceLang targetLang t = None) ->
      backend w (requestOf w sourceLang targetLang t dlSession) = Threw msg ->
      outcome_of w sourceLang targetLang dlSession useCache st (Some t)
        (Result.failure 500 ("An unexpected error occurred: " +:+ msg))
        (asked w sourceLang targetLang t dlSession useCache st)
  | out_answered (t : string) (response : FetchResponse) (r : Result.t) (success : bool) :
      t <> EmptyString ->
      (useCache = true -> cache st !! keyOf sourceLang targetLang t = None) ->
      backend w (requestOf w sourceLang targetLang t dlSession) = Responded response ->
      interpret response (getRandomNumber (random w)) (finalTargetLang targetLang) dlSession
        = (r, success) ->
      outcome_of w sourceLang targetLang dlSession useCache st (Some t) r
        (if success && useCache
         then waitUntil_put (keyOf sourceLang targetLang t) (cacheableResponse r)
                (asked w sourceLang targetLang t dlSession useCache st)
         else asked w sourceLang targetLang t dlSession useCache st).

(** A stored response as the dispatcher writes them: a success, not marked
    as a hit, with its translated text. *)
Definition stored_ok (e : CacheEntry) : Prop :=
  Result.code (entry_body e) = 200 /\
  Result.cached (entry_body e) = false /\
  Result.message (entry_body e) = None /\
  Result.data (entry_body e) <> None.

(** Every response in the cache or on its way to it is such a response. *)
Definition cache_ok (st : State) : Prop :=
  (forall k e, cache st !! k = Some e -> stored_ok e) /\
  (forall k e, In (k, e) (pending st) -> stored_ok e).

(** The token that [authMiddleware] reads from the [Authorization]
    header. *)
Definition tokenInHeader (authHeader : option string) : string :=
  match authHeader with
  | None => EmptyString
  | Some h =>
      if String.eqb h EmptyString then EmptyString
      else match JS.split " " h with
           | [scheme; token] =>
               if String.eqb scheme "Bearer" || String.eqb scheme "DeepL-Auth-Key"
               then token else EmptyString
           | _ => EmptyString
           end
  end.

(** A call that left the cache alone: the cache and the stores in flight
    are as before, and the trace gained at most one backend call. *)
Definition cache_untouched (st st' : State) : Prop :=
  cache st' = cache st /\
  pending st' = pending st /\
  (trace st' = trace st \/ exists request, trace st' = trace st ++ [BackendCall request]).

(** A reply that does not claim to come from the cache: its [cached]
    field, where its shape has one, is [false]. *)
Definition reply_not_cached (reply : Reply) : Prop :=
  match reply_body reply with
  | SimpleShape result => Result.cached result = false
  | OfficialShape _ _ cached => cached = false
  | MessageShape _ _ => True
  end.





(** * Properties *)

(** ** Timestamp derivation *)

(** For any clock value, positive or not, the derived timestamp of a
    non-zero marker count is a multiple of the count plus one. *)
Lemma getTimeStamp_multiple (ts iCount : Z) :
  iCount <> 0 -> iCount + 1 <> 0 ->
  (getTimeStamp ts iCount) mod (iCount + 1) = 0.
Proof.
  intros H0 H1. unfold getTimeStamp.
  destruct (Z.eqb_spec iCount 0) as [E|_]; [contradiction|]. cbn [negb].
  pose proof (Z.quot_rem' ts (iCount + 1)) as Hqr.
  replace (ts - Z.rem ts (iCount + 1) + (iCount + 1))
    with ((ts ÷ (iCount + 1) + 1) * (iCount + 1)) by lia.
  apply Z.mod_mul. assumption.
Qed.

(** C7: with [ts] the current Unix time in milliseconds, [getTimeStamp]
    returns [ts] unchanged for a marker count of 0, and for a marker count
    [markerCount > 0] it returns [ts - (ts mod n) + n] with
    [n = markerCount + 1], which is congruent to 0 modulo [n]. *)
Theorem getTimeStamp_spec (ts markerCount : Z) :
  0 <= ts -> 0 < markerCount ->
  getTimeStamp ts 0 = ts /\
  getTimeStamp ts markerCount
    = ts - ts mod (markerCount + 1) + (markerCount + 1) /\
  (getTimeStamp ts markerCount) mod (markerCount + 1) = 0.
Proof.
  intros Hts Hm. split; [reflexivity|]. split.
  - unfold getTimeStamp.
    destruct (Z.eqb_spec markerCount 0) as [E|_]; [lia|]. cbn [negb].
    rewrite Z.rem_mod_nonneg by lia. reflexivity.
  - apply getTimeStamp_multiple; lia.
Qed.

Lemma getTimeStamp_spec_witness :
  0 <= 1700000000123 /\ 0 < 3 /\
  (getTimeStamp 1700000000123 0 = 1700000000123 /\
   getTimeStamp 1700000000123 3 = 1700000000123 - 1700000000123 mod (3 + 1) + (3 + 1) /\
   (getTimeStamp 1700000000123 3) mod (3 + 1) = 0).
Proof.
  split; [lia|]. split; [lia|].
  apply (getTimeStamp_spec 1700000000123 3); lia.
Defined.

(** ** Request identifier *)

Lemma pow2_neg (e : Z) : e < 0 -> Double.pow2 e = 1 # Z.to_pos (2 ^ (- e)).
Proof.
  intros H. unfold Double.pow2. destruct (Z.leb_spec 0 e); [lia | reflexivity].
Qed.

Lemma round_half_even_bounds (s : Q) :
  (inject_Z (Double.round_half_even s) <= s + (1 # 2))%Q /\
  Qfloor s <= Double.round_half_even s.
Proof.
  destruct s as [a b].
  unfold Double.round_half_even, Qfloor, Qcompare, Qle, Qminus, Qplus, Qopp, inject_Z.
  cbn [Qnum Qden].
  pose proof (Z.div_mod a (Z.pos b) ltac:(lia)) as Hdm.
  pose proof (Z.mod_pos_bound a (Z.pos b) ltac:(lia)) as Hb.
  set (q := a / Z.pos b) in *. set (r := a mod Z.pos b) in *.
  rewrite !Pos2Z.inj_mul.
  destruct (Z.compare_spec ((a * 1 + - q * Z.pos b) * 2) (1 * (Z.pos b * 1))) as [C|C|C];
    [destruct (Z.even q)| |]; split; nia.
Qed.

Lemma exponent_small (x : Q) :
  (x < inject_Z (2 ^ 17))%Q -> Double.exponent x <= 16.
Proof.
  intros Hx. unfold Double.exponent. destruct (Qle_bool 1 x) eqn:E.
  - apply Qle_bool_iff in E.
    assert (H1 : 1 <= Qfloor x).
    { change 1 with (Qfloor (inject_Z 1)). now apply Qfloor_resp_le. }
    assert (H2 : Qfloor x < 2 ^ 17).
    { rewrite Zlt_Qlt. eapply Qle_lt_trans; [apply Qfloor_le | exact Hx]. }
    apply Z.log2_lt_pow2 in H2; lia.
  - pose proof (Z.log2_up_nonneg (Qceiling (/ x))). lia.
Qed.

(** Rounding a positive real below [2^17] to a double adds at most
    [2^-37], and never falls below an integer that the real reaches. *)
Lemma round_small (x : Q) :
  (0 < x)%Q -> (x < inject_Z (2 ^ 17))%Q ->
  (Double.round x <= x + (1 # 2 ^ 37))%Q /\
  (forall j : Z, (inject_Z j <= x)%Q -> (inject_Z j <= Double.round x)%Q).
Proof.
  intros Hpos Hlt. unfold Double.round.
  destruct (Qle_bool x 0) eqn:E;
    [apply Qle_bool_iff in E; exfalso; revert E; apply Qlt_not_le, Hpos|].
  pose proof (exponent_small x Hlt) as Hk.
  set (e := Z.max (Double.exponent x - 52) (-1074)).
  assert (He : e <= -36) by lia.
  rewrite (pow2_neg e) by lia.
  assert (HP : 2 ^ 36 <= 2 ^ (- e)) by (apply Z.pow_le_mono_r; lia).
  assert (HP0 : 0 < 2 ^ (- e)) by lia.
  set (P := Z.to_pos (2 ^ (- e))).
  assert (HPz : Z.pos P = 2 ^ (- e)) by (unfold P; rewrite Z2Pos.id; lia).
  clearbody P. clear E.
  pose proof (round_half_even_bounds (x / (1 # P))) as [Hup Hfl].
  set (m := Double.round_half_even (x / (1 # P))) in *. clearbody m.
  destruct x as [a b].
  unfold Qle, Qlt, Qdiv, Qmult, Qplus, Qinv, inject_Z in *. cbn [Qnum Qden] in *.
  split.
  - rewrite ?Pos2Z.inj_mul in *. cbn in Hup. rewrite ?Pos2Z.inj_mul in Hup.
    change (Z.pos (2 ^ 37)) with (2 ^ 37). nia.
  - intros j Hj.
    unfold Qfloor in Hfl. cbn in Hfl. rewrite ?Pos2Z.inj_mul in *.
    assert (j * Z.pos P <= m).
    { eapply Z.le_trans; [|exact Hfl]. apply Z.div_le_lower_bound; [lia|]. nia. }
    nia.
Qed.

(** The scaled draw of a double of [0, 1): the exact product stays below
    [99999] by more than the rounding can add. *)
Lemma scaled_draw (m e : Z) :
  0 <= m < 2 ^ 53 -> 0 <= e <= 1074 -> m < 2 ^ e ->
  (0 <= Double.make m e * inject_Z 99999)%Q /\
  (Double.make m e * inject_Z 99999 + (1 # 2 ^ 37) < inject_Z 99999)%Q.
Proof.
  intros Hm He Hlt. unfold Double.make.
  assert (HE : 0 < 2 ^ e) by (apply Z.pow_pos_nonneg; lia).
  assert (Hcase : 2 ^ e <= 2 ^ 53 \/ 2 * 2 ^ 53 <= 2 ^ e).
  { destruct (Z.le_gt_cases e 53) as [H|H].
    - left. apply Z.pow_le_mono_r; lia.
    - right. change (2 * 2 ^ 53) with (2 ^ 54). apply Z.pow_le_mono_r; lia. }
  set (P := Z.to_pos (2 ^ e)).
  assert (HPz : Z.pos P = 2 ^ e) by (unfold P; rewrite Z2Pos.id; lia).
  clearbody P. unfold Qle, Qlt, Qmult, Qplus, inject_Z. cbn [Qnum Qden].
  rewrite ?Pos2Z.inj_mul, HPz. change (Z.pos (2 ^ 37)) with (2 ^ 37).
  change (2 ^ 53) with 9007199254740992 in *.
  change (2 ^ 37) with 137438953472.
  split; lia.
Qed.

Lemma floor_in_bucket (y : Q) (j : Z) :
  (inject_Z j <= y)%Q -> (y < inject_Z (j + 1))%Q -> Qfloor y = j.
Proof.
  intros Hlo Hhi.
  pose proof (Qfloor_resp_le _ _ Hlo) as H1. rewrite Qfloor_Z in H1.
  pose proof (Qfloor_le y) as H2.
  assert (H3 : (inject_Z (Qfloor y) < inject_Z (j + 1))%Q)
    by (eapply Qle_lt_trans; eassumption).
  rewrite <- Zlt_Qlt in H3. lia.
Qed.

(** The bucket of a draw: with [x] the exact scaled draw, [0 <= x] and
    [x + 2^-37 < 99999], the floor [j] of the rounded product lies in
    [0, 99998], and [x] lies between [j - 2^-37] and [j + 1]. *)
Lemma bucket_of_draw (x : Q) :
  (0 <= x)%Q -> (x + (1 # 2 ^ 37) < inject_Z 99999)%Q ->
  0 <= Qfloor (Double.round x) <= 99998 /\
  (inject_Z (Qfloor (Double.round x)) - (1 # 2 ^ 37) <= x)%Q /\
  (x < inject_Z (Qfloor (Double.round x) + 1))%Q.
Proof.
  intros H0 Hup.
  assert (Hx : (x < inject_Z (2 ^ 17))%Q).
  { eapply Qle_lt_trans; [|eapply Qlt_trans; [exact Hup|reflexivity]].
    rewrite <- (Qplus_0_r x) at 1. apply Qplus_le_r. discriminate. }
  destruct (Qlt_le_dec 0 x) as [Hpos|Hneg].
  - destruct (round_small x Hpos Hx) as [Hr Hint].
    assert (Hlt : (Double.round x < inject_Z 99999)%Q)
      by (eapply Qle_lt_trans; eassumption).
    assert (Hge : (inject_Z 0 <= Double.round x)%Q) by (apply Hint; exact H0).
    pose proof (Qfloor_le (Double.round x)) as Hfl.
    pose proof (Qlt_floor (Double.round x)) as Hfu.
    split; [|split].
    + split.
      * apply Qfloor_resp_le in Hge. now rewrite Qfloor_Z in Hge.
      * assert (H : (inject_Z (Qfloor (Double.round x)) < inject_Z 99999)%Q)
          by (eapply Qle_lt_trans; eassumption).
        rewrite <- Zlt_Qlt in H. lia.
    + apply Qplus_le_l with (z := (1 # 2 ^ 37)%Q).
      eapply Qle_trans; [|exact Hr].
      eapply Qle_trans; [|exact Hfl].
      generalize (Qfloor (Double.round x)). intros F.
      unfold Qle, Qminus, Qplus, Qopp, inject_Z. simpl. lia.
    + destruct (Qlt_le_dec x (inject_Z (Qfloor (Double.round x) + 1))) as [H|H];
        [exact H|].
      exfalso. apply Hint in H. revert H. apply Qlt_not_le, Hfu.
  - assert (E : Double.round x = 0%Q).
    { unfold Double.round. apply Qle_bool_iff in Hneg. now rewrite Hneg. }
    rewrite E. change (Qfloor 0) with 0. split; [lia|]. split.
    + eapply Qle_trans; [|exact H0]. discriminate.
    + eapply Qle_lt_trans; [exact Hneg | reflexivity].
Qed.

(** A scaled draw well inside a bucket: with [j <= x] and
    [x + 2^-37 < j + 1], the rounded product has floor [j]. *)
Lemma draw_in_bucket (x : Q) (j : Z) :
  (0 <= x)%Q -> (x < inject_Z (2 ^ 17))%Q ->
  (inject_Z j <= x)%Q -> (x + (1 # 2 ^ 37) < inject_Z (j + 1))%Q ->
  Qfloor (Double.round x) = j.
Proof.
  intros H0 Hx Hlo Hhi. destruct (Qlt_le_dec 0 x) as [Hpos|Hneg].
  - destruct (round_small x Hpos Hx) as [Hr Hint].
    apply floor_in_bucket; [now apply Hint | eapply Qle_lt_trans; eassumption].
  - assert (E : Double.round x = 0%Q).
    { unfold Double.round. apply Qle_bool_iff in Hneg. now rewrite Hneg. }
    rewrite E. change (Qfloor 0) with 0.
    assert (H1 : (inject_Z j <= inject_Z 0)%Q) by (eapply Qle_trans; eassumption).
    assert (H2 : (inject_Z 0 < inject_Z (j + 1))%Q).
    { eapply Qle_lt_trans; [|exact Hhi]. eapply Qle_trans; [exact H0|].
      rewrite <- (Qplus_0_r x) at 1. apply Qplus_le_r. discriminate. }
    rewrite <- Zle_Qle in H1. rewrite <- Zlt_Qlt in H2. lia.
Qed.

(** C9, as the code has it: for every double [r] of [0, 1) drawn from the
    random source, [getRandomNumber] returns [k * 1000] for an integer [k]
    of [100000, 199998], hence a positive integer divisible by 1000.  The
    choice of [k] is as uniform as the draw: with [j = k - 100000], the
    draws that give [k] are those whose scaled value [r * 99999] lies in
    the bucket from [j] to [j + 1], up to a margin of [2^-37] at either
    end of the bucket, where the double product may round up to the next
    integer; so the 99999 values of [k] have buckets of one length.  Every
    [k * 1000] with [k] in [100000, 199998] is returned for some draw, a
    multiple of [2^-32] even.  The rounding is visible: the double nearest
    to [1/99999] gives [100001 * 1000] although its scaled value is below
    1. *)
Theorem getRandomNumber_range :
  (forall m e : Z, 0 <= m < 2 ^ 53 -> 0 <= e <= 1074 -> m < 2 ^ e ->
     let r := Double.make m e in
     exists k, 100000 <= k <= 199998 /\
               getRandomNumber r = k * 1000 /\
               0 < getRandomNumber r /\
               (getRandomNumber r) mod 1000 = 0 /\
               (inject_Z (k - 100000) - (1 # 2 ^ 37) <= r * inject_Z 99999)%Q /\
               (r * inject_Z 99999 < inject_Z (k - 100000 + 1))%Q) /\
  (forall m e j : Z, 0 <= m < 2 ^ 53 -> 0 <= e <= 1074 -> m < 2 ^ e ->
     let r := Double.make m e in
     (inject_Z j <= r * inject_Z 99999)%Q ->
     (r * inject_Z 99999 + (1 # 2 ^ 37) < inject_Z (j + 1))%Q ->
     getRandomNumber r = (j + 100000) * 1000) /\
  (forall k, 100000 <= k <= 199998 ->
     exists m, 0 <= m < 2 ^ 32 /\ getRandomNumber (Double.make m 32) = k * 1000) /\
  (getRandomNumber (Double.make 2951508566879197 68) = 100001 * 1000 /\
   (Double.make 2951508566879197 68 * inject_Z 99999 < 1)%Q).
Proof.
  split; [|split; [|split]].
  - intros m e Hm He Hlt r.
    destruct (scaled_draw m e Hm He Hlt) as [H0 Hup]. fold r in H0, Hup.
    destruct (bucket_of_draw _ H0 Hup) as (Hb & Hlo & Hhi).
    exists (Qfloor (Double.round (r * inject_Z 99999)) + 100000).
    unfold getRandomNumber, Double.mul. cbv zeta.
    replace (Qfloor (Double.round (r * inject_Z 99999)) + 100000 - 100000)
      with (Qfloor (Double.round (r * inject_Z 99999))) by lia.
    repeat split; try lia; try assumption. apply Z.mod_mul. lia.
  - intros m e j Hm He Hlt r Hlo Hhi.
    destruct (scaled_draw m e Hm He Hlt) as [H0 Hup]. fold r in H0, Hup.
    assert (Hx : (r * inject_Z 99999 < inject_Z (2 ^ 17))%Q).
    { eapply Qle_lt_trans; [|eapply Qlt_trans; [exact Hup|reflexivity]].
      rewrite <- (Qplus_0_r (r * inject_Z 99999)) at 1. apply Qplus_le_r. discriminate. }
    unfold getRandomNumber, Double.mul. cbv zeta.
    now rewrite (draw_in_bucket _ j H0 Hx Hlo Hhi).
  - intros k Hk. set (j := k - 100000).
    set (m := (2 * j + 1) * 2 ^ 31 / 99999 + 1).
    pose proof (Z.div_mod ((2 * j + 1) * 2 ^ 31) 99999 ltac:(lia)) as Hdm.
    pose proof (Z.mod_pos_bound ((2 * j + 1) * 2 ^ 31) 99999 ltac:(lia)) as Hmb.
    change (2 ^ 31) with 2147483648 in *.
    change (2 ^ 32) with 4294967296.
    assert (Hm : 0 <= m < 4294967296) by (unfold m; lia).
    exists m. split; [exact Hm|].
    unfold getRandomNumber, Double.mul. cbv zeta.
    set (x := (Double.make m 32 * inject_Z 99999)%Q).
    assert (Hxj : (inject_Z j <= x)%Q).
    { unfold x, Double.make, Qle, Qmult, inject_Z. cbn [Qnum Qden].
      change (Z.pos (Z.to_pos (2 ^ 32) * 1)) with 4294967296.
      unfold m. lia. }
    assert (Hxu : (x + (1 # 2 ^ 37) < inject_Z (j + 1))%Q).
    { unfold x, Double.make, Qlt, Qmult, Qplus, inject_Z. cbn [Qnum Qden].
      change (Z.pos (Z.to_pos (2 ^ 32) * 1 * 2 ^ 37))
        with (4294967296 * 137438953472).
      change (Z.pos (Z.to_pos (2 ^ 32) * 1)) with 4294967296.
      change (Z.pos (2 ^ 37)) with 137438953472.
      unfold m. lia. }
    assert (Hx0 : (0 <= x)%Q).
    { unfold x, Double.make, Qle, Qmult, inject_Z. cbn [Qnum Qden]. lia. }
    assert (Hx17 : (x < inject_Z (2 ^ 17))%Q).
    { eapply Qle_lt_trans; [|eapply Qlt_le_trans; [exact Hxu|]].
      - rewrite <- (Qplus_0_r x) at 1. apply Qplus_le_r. discriminate.
      - rewrite <- Zle_Qle. unfold j. change (2 ^ 17) with 131072. lia. }
    rewrite (draw_in_bucket x j Hx0 Hx17 Hxj Hxu). unfold j. lia.
  - split; [vm_compute; reflexivity | reflexivity].
Qed.

Lemma getRandomNumber_range_witness :
  (0 <= 1 < 2 ^ 53 /\ 0 <= 1 <= 1074 /\ 1 < 2 ^ 1 /\
   exists k, 100000 <= k <= 199998 /\
             getRandomNumber (Double.make 1 1) = k * 1000 /\
             0 < getRandomNumber (Double.make 1 1) /\
             (getRandomNumber (Double.make 1 1)) mod 1000 = 0) /\
  ((inject_Z 49999 <= Double.make 1 1 * inject_Z 99999)%Q /\
   (Double.make 1 1 * inject_Z 99999 + (1 # 2 ^ 37) < inject_Z (49999 + 1))%Q /\
   getRandomNumber (Double.make 1 1) = (49999 + 100000) * 1000) /\
  (100000 <= 150000 <= 199998 /\
   exists m, 0 <= m < 2 ^ 32 /\ getRandomNumber (Double.make m 32) = 150000 * 1000).
Proof.
  destruct getRandomNumber_range as (Hall & Hcore & Hreach & _).
  assert (H0 : 0 <= 1 < 2 ^ 53) by (split; [lia | reflexivity]).
  assert (H1 : 0 <= 1 <= 1074) by lia.
  assert (H2 : 1 < 2 ^ 1) by reflexivity.
  split; [|split].
  - split; [exact H0|]. split; [exact H1|]. split; [exact H2|].
    destruct (Hall 1 1 H0 H1 H2) as (k & Hk & E & Hp & Hd & _).
    exists k. auto.
  - assert (Hlo : (inject_Z 49999 <= Double.make 1 1 * inject_Z 99999)%Q)
      by (vm_compute; discriminate).
    assert (Hhi : (Double.make 1 1 * inject_Z 99999 + (1 # 2 ^ 37)
                   < inject_Z (49999 + 1))%Q) by reflexivity.
    split; [exact Hlo|]. split; [exact Hhi|].
    exact (Hcore 1 1 49999 H0 H1 H2 Hlo Hhi).
  - assert (Hk : 100000 <= 150000 <= 199998) by lia.
    split; [exact Hk|]. exact (Hreach 150000 Hk).
Defined.

(** C9, as the specification states it, fails: no double of [0, 1) makes
    [getRandomNumber] return [199999 * 1000], although 199999 lies in the
    stated range [100000, 199999]. *)
Lemma getRandomNumber_misses_199999 :
  100000 <= 199999 <= 199999 /\
  ~ exists m e : Z, 0 <= m < 2 ^ 53 /\ 0 <= e <= 1074 /\ m < 2 ^ e /\
                    getRandomNumber (Double.make m e) = 199999 * 1000.
Proof.
  split; [lia|]. intros (m & e & Hm & He & Hlt & Hr).
  destruct (scaled_draw m e Hm He Hlt) as [H0 Hup].
  destruct (bucket_of_draw _ H0 Hup) as (Hb & _).
  unfold getRandomNumber, Double.mul in Hr. cbv zeta in Hr. lia.
Qed.

(** ** Language normalisation *)

(** C3, as the code has it: the normalised source language is ["EN"] when
    [sourceLang] is absent, empty, or exactly the lower-case string
    ["auto"]; it is the upper-cased [sourceLang] otherwise, so that ["AUTO"]
    and ["Auto"] normalise to ["AUTO"]; the normalised target language is
    always the upper-cased [targetLang]. *)
Theorem normalize_langs (sourceLang : option string) (targetLang : string) :
  (sourceLang = None \/ sourceLang = Some EmptyString \/ sourceLang = Some "auto" ->
     finalSourceLang sourceLang = "EN") /\
  (forall s, sourceLang = Some s -> s <> EmptyString -> s <> "auto" ->
     finalSourceLang sourceLang = JS.toUpperCase s) /\
  finalSourceLang (Some "AUTO") = "AUTO" /\
  finalSourceLang (Some "Auto") = "AUTO" /\
  finalTargetLang targetLang = JS.toUpperCase targetLang.
Proof.
  repeat split.
  - intros [-> | [-> | ->]]; reflexivity.
  - intros s -> Hne Hauto. unfold finalSourceLang.
    destruct (String.eqb_spec s EmptyString) as [E|_]; [contradiction|].
    destruct (String.eqb_spec s "auto") as [E|_]; [contradiction|].
    reflexivity.
Qed.

Lemma normalize_langs_witness :
  (Some "auto" = None \/ Some "auto" = Some EmptyString \/ Some "auto" = Some "auto") /\
  finalSourceLang (Some "auto") = "EN" /\
  (Some "ja" = Some "ja" /\ "ja" <> EmptyString /\ "ja" <> "auto") /\
  finalSourceLang (Some "ja") = JS.toUpperCase "ja" /\
  finalTargetLang "zh" = "ZH".
Proof.
  assert (H1 : Some "auto" = None \/ Some "auto" = Some EmptyString
               \/ Some "auto" = Some "auto") by (right; right; reflexivity).
  assert (H2 : "ja" <> EmptyString) by discriminate.
  assert (H3 : "ja" <> "auto") by discriminate.
  destruct (normalize_langs (Some "auto") "zh") as (Ha & _ & _ & _ & Ht).
  destruct (normalize_langs (Some "ja") "zh") as (_ & Hb & _).
  split; [exact H1|]. split; [exact (Ha H1)|].
  split; [split; [reflexivity | split; assumption]|].
  split; [exact (Hb "ja" eq_refl H2 H3)|]. exact Ht.
Defined.

(** C3, as the specification states it, fails: ["AUTO"] equals ["auto"]
    when compared case-insensitively, yet it is not normalised to ["EN"]. *)
Lemma normalize_AUTO_not_EN :
  JS.toUpperCase "AUTO" = JS.toUpperCase "auto" /\
  finalSourceLang (Some "AUTO") <> "EN".
Proof. split; [reflexivity | discriminate]. Qed.

(** ** Input validation *)

(** C2: a call with an absent or empty text returns status code 400 with
    the message ["No text to translate."] and [cached = false], and leaves
    the state as it was: no backend call, no cache lookup and no cache
    store are added to the trace, whatever the world and the cache. *)
Theorem empty_text_rejected (w : World) (sourceLang : option string)
    (targetLang : string) (translateText : option string) (dlSession : string)
    (useCache : bool) (st : State) :
  translateText = None \/ translateText = Some EmptyString ->
  let '(r, st') :=
    deeplxTranslate w sourceLang targetLang translateText dlSession useCache st in
  Result.code r = 400 /\
  Result.message r = Some "No text to translate." /\
  Result.cached r = false /\
  st' = st /\
  trace st' = trace st /\ cache st' = cache st /\ pending st' = pending st.
Proof.
  intros [-> | ->]; cbn; repeat split.
Qed.

Lemma empty_text_rejected_witness :
  (Some EmptyString = None \/ Some EmptyString = Some EmptyString) /\
  let '(r, st') :=
    deeplxTranslate {| now := 0; random := 0; backend := fun _ => Threw "down" |}
      (Some "EN") "JA" (Some EmptyString) EmptyString false fresh in
  Result.code r = 400 /\
  Result.message r = Some "No text to translate." /\
  Result.cached r = false /\
  st' = fresh /\
  trace st' = trace fresh /\ cache st' = cache fresh /\ pending st' = pending fresh.
Proof.
  assert (H : Some EmptyString = None \/ Some EmptyString = Some EmptyString)
    by (right; reflexivity).
  split; [exact H|].
  exact (empty_text_rejected {| now := 0; random := 0; backend := fun _ => Threw "down" |}
           (Some "EN") "JA" (Some EmptyString) EmptyString false fresh H).
Defined.

(** ** Authentication gate *)

(** C4, evaluated at a public deployment: no secret is configured, yet
    for a request to [/v2/translate] or [/v1/translate] the gate runs
    [authMiddleware], which throws on reading [request.query.token], since
    the request that [fetch] received has no [query] property.  [fetch]
    throws with it, with or without a [token] parameter, and whatever the
    router would have done; on [/translate] the request goes through to
    the router. *)
Theorem public_mode_still_checks_v1_v2 (handle : Incoming -> Env -> Outcome HttpResponse)
    (token authorization : option string) :
  let env := {| TOKEN := None; DL_SESSION := None |} in
  isPrivate env = false /\
  fetch handle {| url_pathname := "/v2/translate"; url_token := Some "abc";
                  header_authorization := None |} env = Raised /\
  fetch handle {| url_pathname := "/v2/translate"; url_token := token;
                  header_authorization := authorization |} env = Raised /\
  fetch handle {| url_pathname := "/v1/translate"; url_token := token;
                  header_authorization := authorization |} env = Raised /\
  fetch handle {| url_pathname := "/translate"; url_token := token;
                  header_authorization := authorization |} env
    = handle {| url_pathname := "/translate"; url_token := token;
                header_authorization := authorization |} env.
Proof. repeat split. Qed.

(** ** Strings: append, prefix and replacement *)

Lemma append_inv_head (a b c : string) : a +:+ b = a +:+ c -> b = c.
Proof.
  induction a as [|x a IH]; simpl; intros H; [exact H|].
  injection H as H. auto.
Qed.

Lemma prefix_append (p x : string) : String.prefix p (p +:+ x) = true.
Proof.
  induction p as [|c p IH]; simpl.
  - destruct x; reflexivity.
  - destruct (ascii_dec c c) as [_|N]; [exact IH | contradiction].
Qed.

Lemma prefix_split (p s : string) :
  String.prefix p s = true -> exists x, s = p +:+ x.
Proof.
  revert s. induction p as [|c p IH]; intros s H.
  - exists s. reflexivity.
  - destruct s as [|d s]; simpl in H; [discriminate|].
    destruct (ascii_dec c d) as [->|_]; [|discriminate].
    destruct (IH s H) as [x ->]. exists x. reflexivity.
Qed.

Lemma drop_string_append (p x : string) :
  JS.drop_string (String.length p) (p +:+ x) = x.
Proof. induction p as [|c p IH]; simpl; [reflexivity | exact IH]. Qed.

Lemma replace_unfold (pat rep s : string) :
  JS.replace pat rep s =
  if String.prefix pat s then rep +:+ JS.drop_string (String.length pat) s
  else match s with
       | EmptyString => EmptyString
       | String c r => String c (JS.replace pat rep r)
       end.
Proof. destruct s; reflexivity. Qed.

Lemma replace_at_head (pat rep post : string) :
  JS.replace pat rep (pat +:+ post) = rep +:+ post.
Proof.
  rewrite replace_unfold, prefix_append, drop_string_append. reflexivity.
Qed.

Lemma replace_skip (pat rep : string) (c : ascii) (r : string) :
  String.prefix pat (String c r) = false ->
  JS.replace pat rep (String c r) = String c (JS.replace pat rep r).
Proof. intros H. rewrite replace_unfold, H. reflexivity. Qed.

(** [replace] rewrites the first occurrence of the pattern and nothing
    else. *)
Lemma replace_first_occurrence (pat rep s pre post : string) :
  first_occurrence pat s pre post ->
  JS.replace pat rep s = pre +:+ rep +:+ post.
Proof.
  revert s. induction pre as [|c pre IH]; intros s [-> Hmin].
  - exact (replace_at_head pat rep post).
  - change (String c pre +:+ pat +:+ post) with (String c (pre +:+ pat +:+ post)).
    change (String c pre +:+ rep +:+ post) with (String c (pre +:+ rep +:+ post)).
    rewrite replace_skip.
    + f_equal. apply IH. split; [reflexivity|].
      intros pre' post' E.
      specialize (Hmin (String c pre') post'). simpl in Hmin.
      rewrite E in Hmin. specialize (Hmin eq_refl). lia.
    + destruct (String.prefix pat (String c (pre +:+ pat +:+ post))) eqn:P;
        [|reflexivity].
      apply prefix_split in P as [x P].
      specialize (Hmin EmptyString x P). simpl in Hmin. lia.
Qed.

(** Without an occurrence of the pattern, [replace] returns its argument. *)
Lemma replace_absent (pat rep s : string) :
  ~ occurs pat s -> JS.replace pat rep s = s.
Proof.
  induction s as [|c r IH]; intros Hno.
  - rewrite replace_unfold.
    destruct (String.prefix pat EmptyString) eqn:P; [|reflexivity].
    exfalso. apply Hno. apply prefix_split in P as [x P].
    exists EmptyString, x. exact P.
  - rewrite replace_skip.
    + f_equal. apply IH. intros (pre & post & E). apply Hno.
      exists (String c pre), post. simpl. now rewrite E.
    + destruct (String.prefix pat (String c r)) eqn:P; [|reflexivity].
      exfalso. apply Hno. apply prefix_split in P as [x P].
      exists EmptyString, x. exact P.
Qed.

(** The test of [handlerBodyMethod], written with the remainder of the
    source, agrees with the two congruences. *)
Lemma calc_true_iff (random : Z) :
  calc random = true <->
  (random + 5) mod 29 = 0 \/ (random + 3) mod 13 = 0.
Proof.
  unfold calc. rewrite orb_true_iff, !Z.eqb_eq.
  rewrite !Z.rem_divide, !Z.mod_divide by lia. reflexivity.
Qed.

(** ** Body perturbation *)

(** C8: [handlerBodyMethod] rewrites the first occurrence in the body of
    the key prefix (the word [method] between double quotes, a colon and a
    double quote; the double quote is the character ["034"] below) to the
    same with a space on either side of the colon exactly when
    [(requestId + 5) mod 29 = 0] or [(requestId + 3) mod 13 = 0], and to
    the same with one space after the colon exactly when neither holds;
    a body without the key prefix is returned unchanged. *)
Theorem handlerBodyMethod_spec (requestId : Z) (body : string) :
  (forall pre post,
     first_occurrence
       (String "034" "method" +:+ String "034" ":" +:+ String "034" EmptyString)
       body pre post ->
     (handlerBodyMethod requestId body
      = pre +:+ (String "034" "method" +:+ String "034" " : " +:+ String "034" EmptyString)
            +:+ post
      <-> (requestId + 5) mod 29 = 0 \/ (requestId + 3) mod 13 = 0) /\
     (handlerBodyMethod requestId body
      = pre +:+ (String "034" "method" +:+ String "034" ": " +:+ String "034" EmptyString)
            +:+ post
      <-> ~ ((requestId + 5) mod 29 = 0 \/ (requestId + 3) mod 13 = 0))) /\
  (~ occurs (String "034" "method" +:+ String "034" ":" +:+ String "034" EmptyString) body ->
   handlerBodyMethod requestId body = body).
Proof.
  unfold handlerBodyMethod. pose proof (calc_true_iff requestId) as Hc.
  split.
  - intros pre post Hfirst.
    pose proof (replace_first_occurrence _ method_spaced _ _ _ Hfirst) as Hs.
    pose proof (replace_first_occurrence _ method_single _ _ _ Hfirst) as Hn.
    change (String "034" "method" +:+ String "034" ":" +:+ String "034" EmptyString)
      with method_key in Hs, Hn.
    destruct (calc requestId).
    + rewrite Hs. split; split.
      * intros _. now apply Hc.
      * reflexivity.
      * intros E. apply append_inv_head in E. discriminate E.
      * intros H. exfalso. apply H, Hc. reflexivity.
    + rewrite Hn. split; split.
      * intros E. apply append_inv_head in E. discriminate E.
      * intros H. apply Hc in H. discriminate H.
      * intros _ H. apply Hc in H. discriminate H.
      * reflexivity.
  - intros Hno. destruct (calc requestId); now apply replace_absent.
Qed.

Lemma handlerBodyMethod_spec_witness :
  first_occurrence
    (String "034" "method" +:+ String "034" ":" +:+ String "034" EmptyString)
    sample_body "{" sample_post /\
  ((100002000 + 5) mod 29 = 0 \/ (100002000 + 3) mod 13 = 0) /\
  handlerBodyMethod 100002000 sample_body
  = "{" +:+ (String "034" "method" +:+ String "034" " : " +:+ String "034" EmptyString)
        +:+ sample_post /\
  ~ ((100000000 + 5) mod 29 = 0 \/ (100000000 + 3) mod 13 = 0) /\
  handlerBodyMethod 100000000 sample_body
  = "{" +:+ (String "034" "method" +:+ String "034" ": " +:+ String "034" EmptyString)
        +:+ sample_post /\
  ~ occurs (String "034" "method" +:+ String "034" ":" +:+ String "034" EmptyString) "{}" /\
  handlerBodyMethod 100002000 "{}" = "{}".
Proof.
  assert (Hfirst : first_occurrence
            (String "034" "method" +:+ String "034" ":" +:+ String "034" EmptyString)
            sample_body "{" sample_post).
  { split; [reflexivity|]. intros pre' post' E.
    destruct pre' as [|? pre']; [discriminate E | simpl; lia]. }
  assert (Hyes : (100002000 + 5) mod 29 = 0 \/ (100002000 + 3) mod 13 = 0)
    by (left; reflexivity).
  assert (Hnot : ~ ((100000000 + 5) mod 29 = 0 \/ (100000000 + 3) mod 13 = 0))
    by (intros [H|H]; discriminate H).
  assert (Hnone : ~ occurs
            (String "034" "method" +:+ String "034" ":" +:+ String "034" EmptyString) "{}").
  { intros (pre & post' & E).
    destruct pre as [|? [|? [|? pre]]]; discriminate E. }
  split; [exact Hfirst|]. split; [exact Hyes|].
  split; [exact (proj2 (proj1 (proj1 (handlerBodyMethod_spec 100002000 sample_body)
                                 "{" sample_post Hfirst)) Hyes)|].
  split; [exact Hnot|].
  split; [exact (proj2 (proj2 (proj1 (handlerBodyMethod_spec 100000000 sample_body)
                                 "{" sample_post Hfirst)) Hnot)|].
  split; [exact Hnone|].
  exact (proj2 (handlerBodyMethod_spec 100002000 "{}") Hnone).
Defined.

(** Scenario F on the envelope the dispatcher sends: its [method] key is
    the first occurrence of the key prefix, so the perturbation always
    applies to it. *)
Lemma envelope_first_occurrence (id : Z) (src tgt txt : string) (ts : Z) :
  exists post,
    first_occurrence method_key (stringify_envelope (postData id src tgt txt ts))
      envelope_head post.
Proof.
  eexists. split.
  - cbv - [JS.string_of_Z JS.json_escape_string String.append]. reflexivity.
  - intros pre' post' E.
    cbv - [JS.string_of_Z JS.json_escape_string String.append] in E.
    do 17 (destruct pre' as [|? pre']; [simpl in E; discriminate E|]).
    simpl. lia.
Qed.

(** ** Cache key *)

Lemma append_length (a b : string) :
  String.length (a +:+ b) = (String.length a + String.length b)%nat.
Proof. induction a as [|x a IH]; simpl; [reflexivity | now rewrite IH]. Qed.

Lemma append_inv_tail (a b c : string) : a +:+ c = b +:+ c -> a = b.
Proof.
  revert b. induction a as [|x a IH]; intros [|y b] H.
  - reflexivity.
  - apply (f_equal String.length) in H. simpl in H.
    rewrite append_length in H. lia.
  - apply (f_equal String.length) in H. simpl in H.
    rewrite append_length in H. lia.
  - simpl in H. injection H as -> H. f_equal. now apply IH.
Qed.

Lemma count_char_append (c : ascii) (a b : string) :
  count_char c (a +:+ b) = (count_char c a + count_char c b)%nat.
Proof.
  induction a as [|x a IH]; simpl; [reflexivity|].
  destruct (Ascii.eqb x c); simpl; now rewrite IH.
Qed.







(** *** The URL parser on clean paths *)




























(** ** The dispatcher, step by step *)

(** A call with a text that is not served from the cache asks the backend,
    and its outcome is the interpretation of the backend's answer. *)
Lemma deeplxTranslate_miss (w : World) (sourceLang : option string)
    (targetLang translateText dlSession : string) (useCache : bool) (st : State) :
  translateText <> EmptyString ->
  (useCache = true -> cache st !! keyOf sourceLang targetLang translateText = None) ->
  deeplxTranslate w sourceLang targetLang (Some translateText) dlSession useCache st =
  let key := keyOf sourceLang targetLang translateText in
  let request := requestOf w sourceLang targetLang translateText dlSession in
  let st1 := if useCache then log (CacheMatch key) st else st in
  let st2 := log (BackendCall request) st1 in
  match backend w request with
  | Threw msg => (Result.failure 500 ("An unexpected error occurred: " +:+ msg), st2)
  | Responded response =>
      let '(finalResult, success) :=
        interpret response (getRandomNumber (random w)) (finalTargetLang targetLang)
          dlSession in
      if success && useCache
      then (finalResult, waitUntil_put key (cacheableResponse finalResult) st2)
      else (finalResult, st2)
  end.
Proof.
  intros Htext Hmiss. unfold deeplxTranslate, keyOf, requestOf in *.
  destruct (String.eqb_spec translateText EmptyString) as [E|_]; [contradiction|].
  destruct useCache.
  - unfold cache_match. rewrite (Hmiss eq_refl). reflexivity.
  - reflexivity.
Qed.

(** A call with a text, the cache in use and an entry under its key
    returns that entry marked as a hit, and does nothing but the lookup. *)
Lemma deeplxTranslate_hit (w : World) (sourceLang : option string)
    (targetLang translateText dlSession : string) (st : State) (e : CacheEntry) :
  translateText <> EmptyString ->
  cache st !! keyOf sourceLang targetLang translateText = Some e ->
  deeplxTranslate w sourceLang targetLang (Some translateText) dlSession true st =
  (Result.set_cached true (entry_body e),
   log (CacheMatch (keyOf sourceLang targetLang translateText)) st).
Proof.
  intros Htext Hhit. unfold deeplxTranslate, keyOf in *.
  destruct (String.eqb_spec translateText EmptyString) as [E|_]; [contradiction|].
  unfold cache_match. rewrite Hhit. reflexivity.
Qed.

Lemma ok_iff (response : FetchResponse) :
  ok response = true <-> 200 <= status response <= 299.
Proof. unfold ok. rewrite andb_true_iff, !Z.leb_le. reflexivity. Qed.

(** The success branch of the interpretation. *)
Lemma interpret_success (response : FetchResponse) (id : Z)
    (finalTargetLang dlSession : string) (resultJson : Payload) (res : ResultObj)
    (t0 : TextEntry) (rest : list TextEntry) :
  200 <= status response <= 299 ->
  body_json response = JsonValue resultJson ->
  error resultJson = None ->
  result resultJson = Some res ->
  texts res = Some (t0 :: rest) ->
  interpret response id finalTargetLang dlSession =
  (Result.mk 200 None (Some id) (Some (text t0)) (Some (alternatives_of t0))
     (lang res) (Some finalTargetLang)
     (Some (if String.eqb dlSession EmptyString then "Free" else "Pro")) false,
   true).
Proof.
  intros Hok Hjson Herr Hres Htexts. unfold interpret.
  destruct (Z.eqb_spec (status response) 429) as [E|_]; [lia|].
  apply ok_iff in Hok. rewrite Hok, Hjson, Herr, Hres. cbn [negb].
  destruct res as [ts l]. simpl in Htexts. subst ts. reflexivity.
Qed.

(** Each failure branch yields an error result with the prescribed code. *)
Lemma interpret_failure (response : FetchResponse) (id : Z)
    (finalTargetLang dlSession : string) (c : Z) :
  failure_branch response c ->
  exists msg,
    interpret response id finalTargetLang dlSession = (Result.failure c msg, false).
Proof.
  intros H. unfold interpret. destruct H as [E | N429 Nok | p e Hok Hj He | p Hok Hj He Ht].
  - rewrite E. eexists. reflexivity.
  - destruct (Z.eqb_spec (status response) 429) as [E|_]; [contradiction|].
    destruct (ok response) eqn:O; [apply ok_iff in O; contradiction|].
    eexists. reflexivity.
  - destruct (Z.eqb_spec (status response) 429) as [E|_]; [lia|].
    apply ok_iff in Hok. rewrite Hok, Hj, He. eexists. reflexivity.
  - destruct (Z.eqb_spec (status response) 429) as [E|_]; [lia|].
    apply ok_iff in Hok. rewrite Hok, Hj, He. cbn [negb].
    destruct Ht as [-> | (res & -> & Hts)]; [eexists; reflexivity|].
    destruct res as [ts l]. simpl in Hts.
    destruct Hts as [-> | ->]; eexists; reflexivity.
Qed.

(** Only the success branch yields status code 200. *)
Lemma interpret_200 (response : FetchResponse) (id : Z)
    (finalTargetLang dlSession : string) (r : Result.t) (success : bool) :
  interpret response id finalTargetLang dlSession = (r, success) ->
  Result.code r = 200 -> success = true.
Proof.
  unfold interpret.
  destruct (Z.eqb_spec (status response) 429) as [E|_].
  { intros [= <- <-]. discriminate. }
  destruct (ok response) eqn:O; cbn [negb].
  2:{ intros [= <- <-] C. simpl in C. unfold ok in O. rewrite C in O.
      discriminate O. }
  destruct (body_json response) as [p|msg]; [|intros [= <- <-]; discriminate].
  destruct (error p); [intros [= <- <-]; discriminate|].
  destruct (result p) as [[[[|t0 ts]|] l]|]; intros [= <- <-]; try discriminate.
  reflexivity.
Qed.

(** ** Success *)

(** C1: when the backend is asked and answers with a 2xx status, no error
    object and a non-empty list of text results, the dispatcher returns
    status code 200, the derived request id, the first result's text, the
    first result's alternative texts (none if absent), the backend's source
    language, the normalised target language, [cached = false], and the
    method ["Pro"] for a non-empty session credential, ["Free"] for an
    empty one. *)
Theorem translate_success (w : World) (sourceLang : option string)
    (targetLang translateText dlSession : string) (useCache : bool) (st : State)
    (response : FetchResponse) (resultJson : Payload) (res : ResultObj)
    (t0 : TextEntry) (rest : list TextEntry) :
  translateText <> EmptyString ->
  (useCache = true -> cache st !! keyOf sourceLang targetLang translateText = None) ->
  backend w (requestOf w sourceLang targetLang translateText dlSession)
    = Responded response ->
  200 <= status response <= 299 ->
  body_json response = JsonValue resultJson ->
  error resultJson = None ->
  result resultJson = Some res ->
  texts res = Some (t0 :: rest) ->
  let r := fst (deeplxTranslate w sourceLang targetLang (Some translateText)
                  dlSession useCache st) in
  Result.code r = 200 /\
  Result.id r = Some (getRandomNumber (random w)) /\
  Result.data r = Some (text t0) /\
  Result.alternatives r
    = Some (match text_alternatives t0 with
            | Some alts => map alt_text alts
            | None => []
            end) /\
  Result.source_lang r = lang res /\
  Result.target_lang r = Some (finalTargetLang targetLang) /\
  Result.cached r = false /\
  (dlSession <> EmptyString -> Result.method r = Some "Pro") /\
  (dlSession = EmptyString -> Result.method r = Some "Free").
Proof.
  intros Htext Hmiss Hback Hok Hjson Herr Hres Htexts.
  rewrite deeplxTranslate_miss by assumption. cbv zeta. rewrite Hback.
  rewrite (interpret_success response _ _ _ resultJson res t0 rest) by assumption.
  assert (Hfst : forall (a : Result.t) (s1 s2 : State) (b : bool),
             fst (if b then (a, s1) else (a, s2)) = a) by (intros ? ? ? []; reflexivity).
  rewrite Hfst. cbn. repeat split.
  - intros Hd. destruct (String.eqb_spec dlSession EmptyString); [contradiction|reflexivity].
  - intros ->. reflexivity.
Qed.

Lemma translate_success_witness :
  "hello" <> EmptyString /\
  (true = true -> cache fresh !! keyOf (Some "auto") "de" "hello" = None) /\
  backend (sample_world (sample_response 200))
    (requestOf (sample_world (sample_response 200)) (Some "auto") "de" "hello" "session")
    = Responded (sample_response 200) /\
  200 <= status (sample_response 200) <= 299 /\
  Result.code (fst (deeplxTranslate (sample_world (sample_response 200))
                      (Some "auto") "de" (Some "hello") "session" true fresh)) = 200 /\
  Result.id (fst (deeplxTranslate (sample_world (sample_response 200))
                    (Some "auto") "de" (Some "hello") "session" true fresh))
    = Some 149999000 /\
  Result.data (fst (deeplxTranslate (sample_world (sample_response 200))
                      (Some "auto") "de" (Some "hello") "session" true fresh))
    = Some "Hallo Welt" /\
  Result.alternatives (fst (deeplxTranslate (sample_world (sample_response 200))
                              (Some "auto") "de" (Some "hello") "session" true fresh))
    = Some ["Hallo, Welt"] /\
  Result.target_lang (fst (deeplxTranslate (sample_world (sample_response 200))
                             (Some "auto") "de" (Some "hello") "session" true fresh))
    = Some "DE" /\
  Result.cached (fst (deeplxTranslate (sample_world (sample_response 200))
                        (Some "auto") "de" (Some "hello") "session" true fresh)) = false /\
  Result.method (fst (deeplxTranslate (sample_world (sample_response 200))
                        (Some "auto") "de" (Some "hello") "session" true fresh))
    = Some "Pro".
Proof.
  assert (H1 : "hello" <> EmptyString) by discriminate.
  assert (H2 : true = true -> cache fresh !! keyOf (Some "auto") "de" "hello" = None)
    by (intros _; apply lookup_empty).
  assert (H3 : backend (sample_world (sample_response 200))
                 (requestOf (sample_world (sample_response 200)) (Some "auto") "de"
                    "hello" "session")
               = Responded (sample_response 200)) by reflexivity.
  assert (H4 : 200 <= status (sample_response 200) <= 299) by (simpl; lia).
  assert (H5 : "session" <> EmptyString) by discriminate.
  split; [exact H1|]. split; [exact H2|]. split; [exact H3|]. split; [exact H4|].
  destruct (translate_success (sample_world (sample_response 200))
              (Some "auto") "de" "hello" "session" true fresh
              (sample_response 200) sample_payload _ _ _
              H1 H2 H3 H4 eq_refl eq_refl eq_refl eq_refl)
    as (Hc & Hi & Hd & Ha & _ & Ht & Hca & Hm & _).
  split; [exact Hc|]. split; [exact Hi|]. split; [exact Hd|].
  split; [exact Ha|]. split; [exact Ht|]. split; [exact Hca|]. exact (Hm H5).
Defined.

(** ** Failures of the backend *)

(** C10: when the backend is asked and its answer falls in one of the four
    failure branches (HTTP 429, another non-2xx status, a 2xx payload with
    an error object, a 2xx payload without text results), the dispatcher
    returns the status code prescribed for the branch with
    [cached = false]; it starts no cache store: the cache and the stores in
    flight are as before, and the trace gains only the lookup (when the
    cache is in use) and the backend call.  A later lookup of the same key
    therefore finds what it would have found before, and misses when the
    key was absent and no store was in flight. *)
Theorem backend_failure_not_cached (w : World) (sourceLang : option string)
    (targetLang translateText dlSession : string) (useCache : bool) (st : State)
    (response : FetchResponse) (c : Z) :
  translateText <> EmptyString ->
  (useCache = true -> cache st !! keyOf sourceLang targetLang translateText = None) ->
  backend w (requestOf w sourceLang targetLang translateText dlSession)
    = Responded response ->
  failure_branch response c ->
  exists r st',
    deeplxTranslate w sourceLang targetLang (Some translateText) dlSession useCache st
      = (r, st') /\
    Result.code r = c /\
    Result.cached r = false /\
    cache st' = cache st /\
    pending st' = pending st /\
    trace st' = trace st
                ++ (if useCache
                    then [CacheMatch (keyOf sourceLang targetLang translateText)]
                    else [])
                ++ [BackendCall (requestOf w sourceLang targetLang translateText dlSession)] /\
    cache (settle st') = cache (settle st) /\
    (pending st = [] ->
     cache st !! keyOf sourceLang targetLang translateText = None ->
     fst (cache_match (keyOf sourceLang targetLang translateText) (settle st')) = None).
Proof.
  intros Htext Hmiss Hback Hfail.
  rewrite deeplxTranslate_miss by assumption. cbv zeta. rewrite Hback.
  destruct (interpret_failure response (getRandomNumber (random w))
              (finalTargetLang targetLang) dlSession c Hfail) as [msg ->].
  cbn [andb]. eexists _, _. split; [reflexivity|].
  assert (Hst : forall st0 : State,
             (if useCache
              then log (CacheMatch (keyOf sourceLang targetLang translateText)) st0
              else st0)
             = {| cache := cache st0; pending := pending st0;
                  trace := trace st0
                           ++ (if useCache
                               then [CacheMatch (keyOf sourceLang targetLang translateText)]
                               else []) |}).
  { intros [c0 p0 t0]. destruct useCache; unfold log; simpl;
      [reflexivity | now rewrite app_nil_r]. }
  rewrite Hst. unfold log, settle. simpl.
  repeat split.
  - now rewrite <- app_assoc.
  - intros Hp Hc. rewrite Hp. simpl. exact Hc.
Qed.

Lemma backend_failure_not_cached_witness :
  "hello" <> EmptyString /\
  (true = true -> cache fresh !! keyOf (Some "EN") "JA" "hello" = None) /\
  backend (sample_world (sample_response 429))
    (requestOf (sample_world (sample_response 429)) (Some "EN") "JA" "hello" EmptyString)
    = Responded (sample_response 429) /\
  failure_branch (sample_response 429) 429 /\
  exists r st',
    deeplxTranslate (sample_world (sample_response 429)) (Some "EN") "JA"
      (Some "hello") EmptyString true fresh = (r, st') /\
    Result.code r = 429 /\
    Result.cached r = false /\
    cache st' = cache fresh /\
    pending st' = pending fresh /\
    fst (cache_match (keyOf (Some "EN") "JA" "hello") (settle st')) = None.
Proof.
  assert (H1 : "hello" <> EmptyString) by discriminate.
  assert (H2 : true = true -> cache fresh !! keyOf (Some "EN") "JA" "hello" = None)
    by (intros _; apply lookup_empty).
  assert (H3 : backend (sample_world (sample_response 429))
                 (requestOf (sample_world (sample_response 429)) (Some "EN") "JA"
                    "hello" EmptyString)
               = Responded (sample_response 429)) by reflexivity.
  assert (H4 : failure_branch (sample_response 429) 429)
    by (apply throttled; reflexivity).
  split; [exact H1|]. split; [exact H2|]. split; [exact H3|]. split; [exact H4|].
  destruct (backend_failure_not_cached (sample_world (sample_response 429))
              (Some "EN") "JA" "hello" EmptyString true fresh
              (sample_response 429) 429 H1 H2 H3 H4)
    as (r & st' & E & Hc & Hca & Hcache & Hpend & _ & _ & Hlater).
  exists r, st'. split; [exact E|]. split; [exact Hc|]. split; [exact Hca|].
  split; [exact Hcache|]. split; [exact Hpend|].
  exact (Hlater eq_refl (H2 eq_refl)).
Defined.

(** ** Cache hits *)

Lemma settle_after_put (key : string) (e : CacheEntry) (st : State) :
  cache (settle (waitUntil_put key e st)) !! key = Some e.
Proof.
  unfold settle, waitUntil_put. simpl. rewrite foldl_snoc. simpl.
  apply lookup_insert_eq.
Qed.

(** C6: when a call with the cache in use succeeds through the backend
    (status code 200, not itself a hit), it starts the store of its result
    under its key; once that store has completed, and more generally in any
    state whose cache holds that stored response under the key, a second
    call with the same arguments returns the first result with [cached]
    forced to [true], hence the same translated text, and performs the
    lookup and nothing else: no backend call and no store, in any world. *)
Theorem second_call_hits (w1 w2 : World) (sourceLang : option string)
    (targetLang : string) (translateText : option string) (dlSession : string)
    (st0 st1 : State) (r1 : Result.t) :
  deeplxTranslate w1 sourceLang targetLang translateText dlSession true st0 = (r1, st1) ->
  Result.code r1 = 200 ->
  Result.cached r1 = false ->
  exists key,
    pending st1 = pending st0 ++ [(key, cacheableResponse r1)] /\
    cache (settle st1) !! key = Some (cacheableResponse r1) /\
    forall st : State,
      cache st !! key = Some (cacheableResponse r1) ->
      exists r2,
        deeplxTranslate w2 sourceLang targetLang translateText dlSession true st
          = (r2, log (CacheMatch key) st) /\
        Result.cached r2 = true /\
        Result.data r2 = Result.data r1 /\
        r2 = Result.set_cached true r1.
Proof.
  intros Hcall Hcode Hfresh.
  destruct translateText as [translateText|];
    [|injection Hcall as <- <-; discriminate Hcode].
  destruct (String.eqb_spec translateText EmptyString) as [->|Htext];
    [injection Hcall as <- <-; discriminate Hcode|].
  set (key := keyOf sourceLang targetLang translateText) in *.
  destruct (cache st0 !! key) as [e|] eqn:Hlook.
  { rewrite (deeplxTranslate_hit _ _ _ _ _ _ e Htext Hlook) in Hcall.
    injection Hcall as <- <-. discriminate Hfresh. }
  rewrite deeplxTranslate_miss in Hcall by (assumption || intros _; exact Hlook).
  cbv zeta in Hcall.
  destruct (backend w1 _) as [response|msg];
    [|injection Hcall as <- <-; discriminate Hcode].
  destruct (interpret response _ _ _) as [finalResult success] eqn:Hint.
  assert (Hs : success = true).
  { apply (interpret_200 _ _ _ _ _ _ Hint).
    destruct success; injection Hcall as <- <-; exact Hcode. }
  subst success. cbn [andb] in Hcall. injection Hcall as <- <-.
  exists key. split; [reflexivity|]. split; [apply settle_after_put|].
  intros st Hst. eexists.
  rewrite (deeplxTranslate_hit w2 _ _ _ _ _ _ Htext Hst).
  split; [reflexivity|]. simpl. repeat split.
Qed.

Lemma second_call_hits_witness :
  Result.code (fst (deeplxTranslate (sample_world (sample_response 200))
                      (Some "EN") "JA" (Some "hello") EmptyString true fresh)) = 200 /\
  Result.cached (fst (deeplxTranslate (sample_world (sample_response 200))
                        (Some "EN") "JA" (Some "hello") EmptyString true fresh)) = false /\
  exists r2 st2,
    deeplxTranslate (sample_world (sample_response 429))
      (Some "EN") "JA" (Some "hello") EmptyString true
      (settle (snd (deeplxTranslate (sample_world (sample_response 200))
                      (Some "EN") "JA" (Some "hello") EmptyString true fresh)))
      = (r2, st2) /\
    Result.cached r2 = true /\
    Result.data r2 = Some "Hallo Welt".
Proof.
  assert (Hcode : Result.code (fst (deeplxTranslate (sample_world (sample_response 200))
                      (Some "EN") "JA" (Some "hello") EmptyString true fresh)) = 200)
    by reflexivity.
  assert (Hfresh : Result.cached (fst (deeplxTranslate (sample_world (sample_response 200))
                      (Some "EN") "JA" (Some "hello") EmptyString true fresh)) = false)
    by reflexivity.
  split; [exact Hcode|]. split; [exact Hfresh|].
  destruct (second_call_hits (sample_world (sample_response 200))
              (sample_world (sample_response 429))
              (Some "EN") "JA" (Some "hello") EmptyString fresh _ _
              (surjective_pairing _) Hcode Hfresh)
    as (key & _ & Hstored & Hsecond).
  destruct (Hsecond _ Hstored) as (r2 & E & Hc & Hd & _).
  exists r2. eexists. split; [exact E|]. split; [exact Hc|].
  rewrite Hd. reflexivity.
Defined.

(** ** The gate in private mode *)

(** With a secret configured, the gate applies to the three translation
    endpoints alike and leaves the root endpoint alone, with or without a
    secret. *)
Lemma gate_private_mode (env : Env) (token authorization : option string) :
  isPrivate env = true ->
  let at_path p := {| url_pathname := p; url_token := token;
                      header_authorization := authorization |} in
  auth_applies env (at_path "/translate") = true /\
  auth_applies env (at_path "/v1/translate") = true /\
  auth_applies env (at_path "/v2/translate") = true /\
  auth_applies env (at_path "/") = false /\
  auth_applies {| TOKEN := None; DL_SESSION := DL_SESSION env |} (at_path "/") = false.
Proof.
  intros Hp. unfold auth_applies. rewrite Hp. repeat split.
Qed.

(** * Further properties of the helpers *)

(** ** Marker count *)

Lemma split_length (sep : ascii) (s : string) :
  List.length (JS.split sep s) = S (count_char sep s).
Proof.
  induction s as [|a r IH]; [reflexivity|].
  cbn [JS.split count_char]. destruct (Ascii.eqb a sep).
  - cbn [List.length]. now rewrite IH.
  - destruct (JS.split sep r) as [|h t]; [discriminate IH | exact IH].
Qed.

Lemma upper_ascii_no_lowercase (c : ascii) :
  JS.upper_ascii c <> "i"%char /\ JS.upper_ascii c <> "a"%char.
Proof.
  destruct c as [[] [] [] [] [] [] [] []]; vm_compute; split; discriminate.
Qed.

Lemma count_i_upper (s : string) : count_char "i" (JS.toUpperCase s) = O.
Proof.
  induction s as [|c r IH]; [reflexivity|]. cbn [JS.toUpperCase count_char].
  destruct (Ascii.eqb_spec (JS.upper_ascii c) "i") as [E|_]; [|exact IH].
  now apply upper_ascii_no_lowercase in E.
Qed.

(** [getICount], written with [split], is the number of lower-case ['i']
    characters of the text: it is never negative, a leading ['i'] adds one,
    a leading ['I'] adds nothing, and an upper-cased text counts zero. *)
Theorem getICount_counts (translateText : string) :
  getICount translateText = Z.of_nat (count_char "i" translateText) /\
  0 <= getICount translateText /\
  getICount (String "i" translateText) = getICount translateText + 1 /\
  getICount (String "I" translateText) = getICount translateText /\
  getICount (JS.toUpperCase translateText) = 0.
Proof.
  assert (H : forall s, getICount s = Z.of_nat (count_char "i" s)).
  { intros s. unfold getICount. rewrite split_length. lia. }
  rewrite !H, count_i_upper. cbn [count_char].
  change (Ascii.eqb "i" "i") with true. change (Ascii.eqb "I" "i") with false.
  repeat split; lia.
Qed.

(** ** Timestamp *)

(** For a non-negative clock and a positive marker count, the derived
    timestamp lies strictly after the clock and at most [markerCount + 1]
    milliseconds after it. *)
Theorem getTimeStamp_bounds (ts markerCount : Z) :
  0 <= ts -> 0 < markerCount ->
  ts < getTimeStamp ts markerCount <= ts + markerCount + 1.
Proof.
  intros Hts Hm. unfold getTimeStamp.
  destruct (Z.eqb_spec markerCount 0) as [E|_]; [lia|]. cbn [negb].
  pose proof (Z.rem_bound_pos ts (markerCount + 1) Hts ltac:(lia)). lia.
Qed.

Lemma getTimeStamp_bounds_witness :
  0 <= 1700000000123 /\ 0 < 3 /\
  1700000000123 < getTimeStamp 1700000000123 3 <= 1700000000123 + 3 + 1.
Proof.
  split; [lia|]. split; [lia|]. apply (getTimeStamp_bounds 1700000000123 3); lia.
Defined.

(** The timestamp sent for a text: with [n] the number of ['i'] in the
    text, it is a multiple of [n + 1] that lies between the clock and the
    clock plus [n + 1]; for a text without ['i'] it is the clock itself. *)
Theorem timestamp_of_text (now : Z) (translateText : string) :
  0 <= now ->
  let n := Z.of_nat (count_char "i" translateText) in
  let t := getTimeStamp now (getICount translateText) in
  now <= t <= now + n + 1 /\
  t mod (n + 1) = 0 /\
  (n = 0 -> t = now).
Proof.
  intros Hnow n t. subst t.
  assert (Hn : getICount translateText = n).
  { unfold getICount. rewrite split_length. lia. }
  rewrite Hn. assert (0 <= n) by lia.
  destruct (Z.eq_dec n 0) as [E|E].
  - rewrite E. cbn. repeat split; try lia. apply Z.mod_1_r.
  - split; [|split; [|contradiction]].
    + unfold getTimeStamp. destruct (Z.eqb_spec n 0); [contradiction|]. cbn [negb].
      pose proof (Z.rem_bound_pos now (n + 1) Hnow ltac:(lia)). lia.
    + apply getTimeStamp_multiple; lia.
Qed.

Lemma timestamp_of_text_witness :
  0 <= 1700000000123 /\
  (1700000000123 <= getTimeStamp 1700000000123 (getICount "initial i")
     <= 1700000000123 + 4 + 1 /\
   (getTimeStamp 1700000000123 (getICount "initial i")) mod (4 + 1) = 0).
Proof.
  split; [lia|].
  destruct (timestamp_of_text 1700000000123 "initial i") as (H1 & H2 & _); [lia|].
  split; [exact H1 | exact H2].
Defined.

(** ** The request sent to the backend *)

(** Whatever the id, the languages, the text and the session, the request
    is a POST to the fixed JSON-RPC endpoint; its body is the serialised
    envelope with the [method] key, and nothing else, rewritten; it carries
    the ten fixed headers, and a [Cookie] header exactly when the session
    is not empty, holding [dl_session=<session>]. *)
Theorem backendRequest_shape (id : Z) (src tgt txt : string) (ts : Z) (dlSession : string) :
  let request := backendRequest id src tgt txt ts dlSession in
  req_url request = "https://www2.deepl.com/jsonrpc" /\
  req_method request = "POST" /\
  (exists post,
     stringify_envelope (postData id src tgt txt ts)
       = envelope_head +:+ method_key +:+ post /\
     req_body request
       = envelope_head +:+ (if calc id then method_spaced else method_single) +:+ post) /\
  (forall h, In h base_headers -> In h (req_headers request)) /\
  (forall v, In ("Cookie", v) (req_headers request) <->
             dlSession <> EmptyString /\ v = "dl_session=" +:+ dlSession).
Proof.
  cbv zeta. cbn [req_url req_method req_body req_headers backendRequest].
  split; [reflexivity|]. split; [reflexivity|]. split; [|split].
  - destruct (envelope_first_occurrence id src tgt txt ts) as [post Hfirst].
    exists post. split; [exact (proj1 Hfirst)|].
    unfold handlerBodyMethod. destruct (calc id); now apply replace_first_occurrence.
  - intros h Hin. unfold headers.
    destruct (String.eqb dlSession EmptyString); [exact Hin|].
    apply in_or_app. now left.
  - intros v. unfold headers.
    destruct (String.eqb_spec dlSession EmptyString) as [E|N].
    + split.
      * intros Hin. exfalso. unfold base_headers in Hin. simpl in Hin.
        repeat (destruct Hin as [Hin|Hin]; [discriminate Hin|]). exact Hin.
      * intros [Hne _]. contradiction.
    + split.
      * intros Hin. apply in_app_or in Hin as [Hin|Hin].
        -- exfalso. unfold base_headers in Hin. simpl in Hin.
           repeat (destruct Hin as [Hin|Hin]; [discriminate Hin|]). exact Hin.
        -- destruct Hin as [Hin|[]]. injection Hin as <-. auto.
      * intros [_ ->]. apply in_or_app. right. now left.
Qed.

(** ** Case of the language codes *)

Lemma upper_ascii_idem (c : ascii) : JS.upper_ascii (JS.upper_ascii c) = JS.upper_ascii c.
Proof. destruct c as [[] [] [] [] [] [] [] []]; reflexivity. Qed.

Lemma toUpperCase_idem (s : string) : JS.toUpperCase (JS.toUpperCase s) = JS.toUpperCase s.
Proof.
  induction s as [|c r IH]; [reflexivity|]. cbn [JS.toUpperCase].
  now rewrite upper_ascii_idem, IH.
Qed.

Lemma finalSourceLang_upper (s : string) :
  s <> "auto" -> finalSourceLang (Some (JS.toUpperCase s)) = finalSourceLang (Some s).
Proof.
  intros Hauto. destruct s as [|c r]; [reflexivity|].
  unfold finalSourceLang. cbn [JS.toUpperCase].
  destruct (String.eqb_spec (String c r) "auto") as [E|_]; [contradiction|].
  destruct (String.eqb_spec (String (JS.upper_ascii c) (JS.toUpperCase r)) "auto")
    as [E|_].
  { injection E as E _. now apply upper_ascii_no_lowercase in E. }
  cbn [String.eqb orb JS.toUpperCase].
  now rewrite upper_ascii_idem, toUpperCase_idem.
Qed.

(** The dispatcher reads its language codes up to ASCII case: a call with
    a source language other than ["auto"] behaves exactly as the call with
    both codes upper-cased, and so uses the same cache key; and an absent,
    empty, ["auto"] or ["en"] source language all stand for ["EN"]. *)
Theorem language_codes_case_insensitive (w : World) (s targetLang : string)
    (translateText : option string) (dlSession : string) (useCache : bool) (st : State) :
  (s <> "auto" ->
   deeplxTranslate w (Some (JS.toUpperCase s)) (JS.toUpperCase targetLang)
     translateText dlSession useCache st
   = deeplxTranslate w (Some s) targetLang translateText dlSession useCache st) /\
  (s <> "auto" ->
   forall t, keyOf (Some (JS.toUpperCase s)) (JS.toUpperCase targetLang) t
             = keyOf (Some s) targetLang t) /\
  (forall sourceLang,
     In sourceLang [None; Some EmptyString; Some "auto"; Some "en"; Some "En"; Some "EN"] ->
     deeplxTranslate w sourceLang targetLang translateText dlSession useCache st
     = deeplxTranslate w (Some "EN") targetLang translateText dlSession useCache st).
Proof.
  split; [|split].
  - intros Hs. unfold deeplxTranslate, finalTargetLang.
    rewrite (finalSourceLang_upper s Hs), toUpperCase_idem. reflexivity.
  - intros Hs t. unfold keyOf, finalTargetLang.
    rewrite (finalSourceLang_upper s Hs), toUpperCase_idem. reflexivity.
  - intros sourceLang Hin. simpl in Hin.
    repeat (destruct Hin as [<-|Hin]; [reflexivity|]). destruct Hin.
Qed.

Lemma language_codes_case_insensitive_witness :
  "ja" <> "auto" /\
  deeplxTranslate (sample_world (sample_response 200)) (Some (JS.toUpperCase "ja"))
    (JS.toUpperCase "de") (Some "hello") EmptyString true fresh
  = deeplxTranslate (sample_world (sample_response 200)) (Some "ja") "de"
      (Some "hello") EmptyString true fresh /\
  keyOf (Some (JS.toUpperCase "ja")) (JS.toUpperCase "de") "hello"
  = keyOf (Some "ja") "de" "hello".
Proof.
  assert (H : "ja" <> "auto") by discriminate.
  destruct (language_codes_case_insensitive (sample_world (sample_response 200))
              "ja" "de" (Some "hello") EmptyString true fresh) as (H1 & H2 & _).
  split; [exact H|]. split; [exact (H1 H) | exact (H2 H "hello")].
Defined.

(** * Further properties of the dispatcher *)

(** Every call of the dispatcher goes one of the four ways. *)
Lemma deeplxTranslate_outcome (w : World) (sourceLang : option string)
    (targetLang : string) (translateText : option string) (dlSession : string)
    (useCache : bool) (st : State) :
  outcome_of w sourceLang targetLang dlSession useCache st translateText
    (fst (deeplxTranslate w sourceLang targetLang translateText dlSession useCache st))
    (snd (deeplxTranslate w sourceLang targetLang translateText dlSession useCache st)).
Proof.
  destruct translateText as [t|]; [|apply out_rejected; now left].
  destruct (String.eqb_spec t EmptyString) as [->|Ht];
    [apply out_rejected; now right|].
  destruct useCache.
  - destruct (cache st !! keyOf sourceLang targetLang t) as [e|] eqn:Hlook.
    + rewrite (deeplxTranslate_hit _ _ _ _ _ _ e Ht Hlook). now apply out_hit.
    + rewrite deeplxTranslate_miss by (assumption || intros _; exact Hlook).
      cbv zeta.
      destruct (backend w (requestOf w sourceLang targetLang t dlSession))
        as [response|msg] eqn:Hb.
      * destruct (interpret response _ _ _) as [r success] eqn:Hi.
        pose proof (out_answered w sourceLang targetLang dlSession true st t
                      response r success Ht (fun _ => Hlook) Hb Hi) as H.
        destruct success; exact H.
      * apply (out_threw w sourceLang targetLang dlSession true st t msg Ht
                 (fun _ => Hlook) Hb).
  - rewrite deeplxTranslate_miss by (assumption || discriminate).
    cbv zeta.
    destruct (backend w (requestOf w sourceLang targetLang t dlSession))
      as [response|msg] eqn:Hb.
    + destruct (interpret response _ _ _) as [r success] eqn:Hi.
      pose proof (out_answered w sourceLang targetLang dlSession false st t
                    response r success Ht ltac:(discriminate) Hb Hi) as H.
      destruct success; exact H.
    + apply (out_threw w sourceLang targetLang dlSession false st t msg Ht
               ltac:(discriminate) Hb).
Qed.

(** A result read off the backend's answer is never marked as a hit, and
    it is the success result exactly when its status code is 200. *)
Lemma interpret_fresh (response : FetchResponse) (id : Z)
    (finalTargetLang dlSession : string) (r : Result.t) (success : bool) :
  interpret response id finalTargetLang dlSession = (r, success) ->
  Result.cached r = false /\ (success = true <-> Result.code r = 200).
Proof.
  intros H. split.
  - revert H. unfold interpret.
    repeat match goal with
           | |- context [if ?b then _ else _] => destruct b
           | |- context [match ?x with _ => _ end] => destruct x
           end; intros [= <- <-]; reflexivity.
  - split; [|now apply (interpret_200 _ _ _ _ _ _ H)].
    intros ->. revert H. unfold interpret.
    repeat match goal with
           | |- context [if ?b then _ else _] => destruct b
           | |- context [match ?x with _ => _ end] => destruct x
           end; intros [= <-]; reflexivity.
Qed.

(** Whatever way a call goes, it leaves the cache itself as it was, and its
    result is marked as a hit exactly when the lookup found an entry. *)
Lemma outcome_cache_same (w : World) (sourceLang : option string)
    (targetLang dlSession : string) (useCache : bool) (st : State)
    (translateText : option string) (r : Result.t) (st' : State) :
  outcome_of w sourceLang targetLang dlSession useCache st translateText r st' ->
  cache st' = cache st.
Proof.
  intros H. destruct H as [text Hno | t e Ht Huc Hlook | t msg Ht Hmiss Hb
                           | t response r success Ht Hmiss Hb Hi];
    try reflexivity; destruct useCache; try reflexivity;
    destruct success; reflexivity.
Qed.

Lemma outcome_cached_iff (w : World) (sourceLang : option string)
    (targetLang dlSession : string) (useCache : bool) (st : State)
    (translateText : option string) (r : Result.t) (st' : State) :
  outcome_of w sourceLang targetLang dlSession useCache st translateText r st' ->
  (Result.cached r = true <->
   useCache = true /\
   exists t e, translateText = Some t /\ t <> EmptyString /\
               cache st !! keyOf sourceLang targetLang t = Some e).
Proof.
  intros H. destruct H as [text Hno | t e Ht Huc Hlook | t msg Ht Hmiss Hb
                           | t response r success Ht Hmiss Hb Hi].
  - split; [discriminate|].
    intros (_ & t & e & -> & Ht & _). destruct Hno as [Hno|Hno]; [discriminate|].
    injection Hno as ->. contradiction.
  - split; [|reflexivity]. intros _. split; [exact Huc|]. now exists t, e.
  - split; [discriminate|].
    intros (Huc & t' & e & [= <-] & _ & Hlook). rewrite (Hmiss Huc) in Hlook.
    discriminate Hlook.
  - apply interpret_fresh in Hi as [Hc _]. rewrite Hc. split; [discriminate|].
    intros (Huc & t' & e & [= <-] & _ & Hlook). rewrite (Hmiss Huc) in Hlook.
    discriminate Hlook.
Qed.

Lemma outcome_fresh_asks (w : World) (sourceLang : option string)
    (targetLang dlSession : string) (useCache : bool) (st : State)
    (t : string) (r : Result.t) (st' : State) :
  outcome_of w sourceLang targetLang dlSession useCache st (Some t) r st' ->
  t <> EmptyString -> Result.cached r = false ->
  In (BackendCall (requestOf w sourceLang targetLang t dlSession)) (trace st').
Proof.
  intros H Ht Hfresh. inversion H as [text Hno | t' e Ht' Huc Hlook | t' msg Ht' Hmiss Hb
                                      | t' response r' success Ht' Hmiss Hb Hi]; subst.
  - destruct Hno as [Hno|Hno]; [discriminate|]. injection Hno as ->. contradiction.
  - discriminate Hfresh.
  - unfold asked, log. cbn [trace]. apply in_or_app. right. now left.
  - destruct (success && useCache); unfold waitUntil_put, asked, log; cbn [trace].
    + apply in_or_app. left. apply in_or_app. right. now left.
    + apply in_or_app. right. now left.
Qed.

(** ** The cache is left alone when it is switched off *)

(** With [useCache = false] the dispatcher never reads or writes the
    cache, whatever it holds: the result is not marked as a hit, the cache
    and the stores in flight are unchanged, and the only effect it may add
    to the trace is the one backend call. *)
Theorem cache_off_untouched (w : World) (sourceLang : option string)
    (targetLang : string) (translateText : option string) (dlSession : string)
    (st : State) :
  let r := fst (deeplxTranslate w sourceLang targetLang translateText dlSession false st) in
  let st' := snd (deeplxTranslate w sourceLang targetLang translateText dlSession false st) in
  Result.cached r = false /\
  cache st' = cache st /\
  pending st' = pending st /\
  (trace st' = trace st \/
   exists t, translateText = Some t /\
             trace st' = trace st
                         ++ [BackendCall (requestOf w sourceLang targetLang t dlSession)]).
Proof.
  cbv zeta.
  pose proof (deeplxTranslate_outcome w sourceLang targetLang translateText
                dlSession false st) as H.
  destruct H as [text Hno | t e Ht Huc Hlook | t msg Ht Hmiss Hb
                 | t response r success Ht Hmiss Hb Hi].
  - repeat split. now left.
  - discriminate Huc.
  - repeat split. right. exists t. split; reflexivity.
  - apply interpret_fresh in Hi as [Hc _]. rewrite andb_false_r.
    repeat split; [exact Hc|]. right. exists t. split; reflexivity.
Qed.

(** ** Hits *)

(** A result is marked [cached = true] exactly when the cache is in use,
    the text is not empty and the cache holds an entry under the key; the
    result is then that entry with the mark set, and the call performs the
    lookup and nothing else. *)
Theorem cached_iff_hit (w : World) (sourceLang : option string)
    (targetLang : string) (translateText : option string) (dlSession : string)
    (useCache : bool) (st : State) :
  let r := fst (deeplxTranslate w sourceLang targetLang translateText dlSession useCache st) in
  let st' := snd (deeplxTranslate w sourceLang targetLang translateText dlSession useCache st) in
  (Result.cached r = true <->
   useCache = true /\
   exists t e, translateText = Some t /\ t <> EmptyString /\
               cache st !! keyOf sourceLang targetLang t = Some e) /\
  (Result.cached r = true ->
   exists t e, translateText = Some t /\
               cache st !! keyOf sourceLang targetLang t = Some e /\
               r = Result.set_cached true (entry_body e) /\
               st' = log (CacheMatch (keyOf sourceLang targetLang t)) st).
Proof.
  cbv zeta.
  pose proof (deeplxTranslate_outcome w sourceLang targetLang translateText
                dlSession useCache st) as H.
  destruct H as [text Hno | t e Ht Huc Hlook | t msg Ht Hmiss Hb
                 | t response r success Ht Hmiss Hb Hi].
  - split; [split|]; try discriminate.
    intros (_ & t & e & -> & Ht & _). destruct Hno as [Hno|Hno]; [discriminate|].
    injection Hno as ->. contradiction.
  - split; [split|].
    + intros _. split; [exact Huc|]. now exists t, e.
    + reflexivity.
    + intros _. exists t, e. auto.
  - split; [split|]; try discriminate.
    intros (Huc & t' & e & [= <-] & _ & Hlook). rewrite (Hmiss Huc) in Hlook.
    discriminate Hlook.
  - apply interpret_fresh in Hi as [Hc _]. rewrite Hc.
    split; [split|]; try discriminate.
    intros (Huc & t' & e & [= <-] & _ & Hlook). rewrite (Hmiss Huc) in Hlook.
    discriminate Hlook.
Qed.

Lemma cached_iff_hit_witness :
  Result.cached (fst (deeplxTranslate (sample_world (sample_response 429))
                        (Some "EN") "JA" (Some "hello") EmptyString true
                        {| cache := {[ keyOf (Some "EN") "JA" "hello" :=
                                         cacheableResponse (Result.failure 200 "kept") ]};
                           pending := []; trace := [] |})) = true /\
  exists t e,
    Some "hello" = Some t /\
    e = cacheableResponse (Result.failure 200 "kept") /\
    fst (deeplxTranslate (sample_world (sample_response 429))
           (Some "EN") "JA" (Some "hello") EmptyString true
           {| cache := {[ keyOf (Some "EN") "JA" "hello" :=
                            cacheableResponse (Result.failure 200 "kept") ]};
              pending := []; trace := [] |})
    = Result.set_cached true (entry_body e).
Proof.
  assert (H : Result.cached (fst (deeplxTranslate (sample_world (sample_response 429))
                        (Some "EN") "JA" (Some "hello") EmptyString true
                        {| cache := {[ keyOf (Some "EN") "JA" "hello" :=
                                         cacheableResponse (Result.failure 200 "kept") ]};
                           pending := []; trace := [] |})) = true)
    by reflexivity.
  split; [exact H|].
  destruct (proj2 (cached_iff_hit (sample_world (sample_response 429))
              (Some "EN") "JA" (Some "hello") EmptyString true
              {| cache := {[ keyOf (Some "EN") "JA" "hello" :=
                               cacheableResponse (Result.failure 200 "kept") ]};
                 pending := []; trace := [] |}) H)
    as (t & e & Ht & Hlook & Hr & _).
  exists t, e. split; [exact Ht|]. split; [|exact Hr].
  injection Ht as <-. unfold cache in Hlook. rewrite lookup_singleton_eq in Hlook.
  now injection Hlook as <-.
Defined.

(** ** Stores *)

(** The dispatcher never writes the cache itself, and it starts a store
    exactly when the cache is in use and the result is a fresh success
    (status code 200, not a hit); what it stores under the call's key is
    then the very result it returns.  In every other case the stores in
    flight are as before. *)
Theorem store_iff_fresh_success (w : World) (sourceLang : option string)
    (targetLang : string) (translateText : option string) (dlSession : string)
    (useCache : bool) (st : State) :
  let r := fst (deeplxTranslate w sourceLang targetLang translateText dlSession useCache st) in
  let st' := snd (deeplxTranslate w sourceLang targetLang translateText dlSession useCache st) in
  cache st' = cache st /\
  (useCache = true /\ Result.code r = 200 /\ Result.cached r = false ->
   exists t, translateText = Some t /\
             pending st' = pending st
                           ++ [(keyOf sourceLang targetLang t, cacheableResponse r)]) /\
  (~ (useCache = true /\ Result.code r = 200 /\ Result.cached r = false) ->
   pending st' = pending st).
Proof.
  cbv zeta.
  pose proof (deeplxTranslate_outcome w sourceLang targetLang translateText
                dlSession useCache st) as H.
  destruct H as [text Hno | t e Ht Huc Hlook | t msg Ht Hmiss Hb
                 | t response r success Ht Hmiss Hb Hi].
  - split; [reflexivity|]. split; [|reflexivity].
    intros (_ & Hc & _). discriminate Hc.
  - split; [reflexivity|]. split; [|reflexivity].
    intros (_ & _ & Hc). discriminate Hc.
  - split; [destruct useCache; reflexivity|].
    split; [|destruct useCache; reflexivity].
    intros (_ & Hc & _). discriminate Hc.
  - apply interpret_fresh in Hi as [Hc Hs].
    split; [destruct success, useCache; reflexivity|]. split.
    + intros (-> & Hcode & _). apply Hs in Hcode as ->. exists t. split; reflexivity.
    + intros Hn. destruct success, useCache; try reflexivity.
      exfalso. apply Hn. repeat split; [now apply Hs | exact Hc].
Qed.

Lemma store_iff_fresh_success_witness :
  (true = true /\
   Result.code (fst (deeplxTranslate (sample_world (sample_response 200))
                       (Some "EN") "JA" (Some "hello") EmptyString true fresh)) = 200 /\
   Result.cached (fst (deeplxTranslate (sample_world (sample_response 200))
                         (Some "EN") "JA" (Some "hello") EmptyString true fresh)) = false) /\
  (exists t, Some "hello" = Some t /\
     pending (snd (deeplxTranslate (sample_world (sample_response 200))
                     (Some "EN") "JA" (Some "hello") EmptyString true fresh))
     = pending fresh
       ++ [(keyOf (Some "EN") "JA" t,
            cacheableResponse
              (fst (deeplxTranslate (sample_world (sample_response 200))
                      (Some "EN") "JA" (Some "hello") EmptyString true fresh)))]) /\
  ~ (true = true /\
     Result.code (fst (deeplxTranslate (sample_world (sample_response 429))
                         (Some "EN") "JA" (Some "hello") EmptyString true fresh)) = 200 /\
     Result.cached (fst (deeplxTranslate (sample_world (sample_response 429))
                           (Some "EN") "JA" (Some "hello") EmptyString true fresh)) = false) /\
  pending (snd (deeplxTranslate (sample_world (sample_response 429))
                  (Some "EN") "JA" (Some "hello") EmptyString true fresh))
  = pending fresh.
Proof.
  assert (Hyes : true = true /\
    Result.code (fst (deeplxTranslate (sample_world (sample_response 200))
                        (Some "EN") "JA" (Some "hello") EmptyString true fresh)) = 200 /\
    Result.cached (fst (deeplxTranslate (sample_world (sample_response 200))
                          (Some "EN") "JA" (Some "hello") EmptyString true fresh)) = false)
    by (repeat split).
  assert (Hno : ~ (true = true /\
    Result.code (fst (deeplxTranslate (sample_world (sample_response 429))
                        (Some "EN") "JA" (Some "hello") EmptyString true fresh)) = 200 /\
    Result.cached (fst (deeplxTranslate (sample_world (sample_response 429))
                          (Some "EN") "JA" (Some "hello") EmptyString true fresh)) = false))
    by (intros (_ & Hc & _); discriminate Hc).
  split; [exact Hyes|].
  split; [exact (proj1 (proj2 (store_iff_fresh_success (sample_world (sample_response 200))
                   (Some "EN") "JA" (Some "hello") EmptyString true fresh)) Hyes)|].
  split; [exact Hno|].
  exact (proj2 (proj2 (store_iff_fresh_success (sample_world (sample_response 429))
                   (Some "EN") "JA" (Some "hello") EmptyString true fresh)) Hno).
Defined.

(** ** Exceptions *)

(** When the backend is asked and the call throws, or answers with a 2xx
    status and a body that is not JSON, the dispatcher catches the error: it returns status code 500 with the error text behind
    ["An unexpected error occurred: "], not marked as a hit, and starts no
    store. *)
Theorem unexpected_failure_caught (w : World) (sourceLang : option string)
    (targetLang translateText dlSession : string) (useCache : bool) (st : State)
    (msg : string) :
  translateText <> EmptyString ->
  (useCache = true -> cache st !! keyOf sourceLang targetLang translateText = None) ->
  (backend w (requestOf w sourceLang targetLang translateText dlSession) = Threw msg \/
   exists response,
     backend w (requestOf w sourceLang targetLang translateText dlSession)
       = Responded response /\
     200 <= status response <= 299 /\
     body_json response = JsonError msg) ->
  deeplxTranslate w sourceLang targetLang (Some translateText) dlSession useCache st
  = (Result.failure 500 ("An unexpected error occurred: " +:+ msg),
     asked w sourceLang targetLang translateText dlSession useCache st).
Proof.
  intros Ht Hmiss Hb. rewrite deeplxTranslate_miss by assumption. cbv zeta.
  destruct Hb as [-> | (response & -> & Hok & Hj)]; [reflexivity|].
  unfold interpret.
  destruct (Z.eqb_spec (status response) 429) as [E|_]; [lia|].
  apply ok_iff in Hok. rewrite Hok, Hj. reflexivity.
Qed.

Lemma unexpected_failure_caught_witness :
  "hello" <> EmptyString /\
  (true = true -> cache fresh !! keyOf (Some "EN") "JA" "hello" = None) /\
  backend {| now := 0; random := 0; backend := fun _ => Threw "connection reset" |}
    (requestOf {| now := 0; random := 0; backend := fun _ => Threw "connection reset" |}
       (Some "EN") "JA" "hello" EmptyString) = Threw "connection reset" /\
  deeplxTranslate {| now := 0; random := 0; backend := fun _ => Threw "connection reset" |}
    (Some "EN") "JA" (Some "hello") EmptyString true fresh
  = (Result.failure 500 ("An unexpected error occurred: " +:+ "connection reset"),
     asked {| now := 0; random := 0; backend := fun _ => Threw "connection reset" |}
       (Some "EN") "JA" "hello" EmptyString true fresh).
Proof.
  assert (H1 : "hello" <> EmptyString) by discriminate.
  assert (H2 : true = true -> cache fresh !! keyOf (Some "EN") "JA" "hello" = None)
    by (intros _; apply lookup_empty).
  split; [exact H1|]. split; [exact H2|]. split; [reflexivity|].
  apply (unexpected_failure_caught
           {| now := 0; random := 0; backend := fun _ => Threw "connection reset" |}
           (Some "EN") "JA" "hello" EmptyString true fresh "connection reset" H1 H2).
  left. reflexivity.
Defined.

(** ** Where a fresh success comes from *)

Lemma interpret_success_inv (response : FetchResponse) (id : Z)
    (finalTargetLang dlSession : string) (r : Result.t) :
  interpret response id finalTargetLang dlSession = (r, true) ->
  exists resultJson res t0 rest,
    200 <= status response <= 299 /\
    body_json response = JsonValue resultJson /\
    error resultJson = None /\
    result resultJson = Some res /\
    texts res = Some (t0 :: rest) /\
    r = Result.mk 200 None (Some id) (Some (text t0)) (Some (alternatives_of t0))
          (lang res) (Some finalTargetLang)
          (Some (if String.eqb dlSession EmptyString then "Free" else "Pro")) false.
Proof.
  unfold interpret.
  destruct (Z.eqb_spec (status response) 429) as [E|_]; [discriminate|].
  destruct (ok response) eqn:O; cbn [negb]; [|discriminate].
  destruct (body_json response) as [p|msg] eqn:J; [|discriminate].
  destruct (error p) eqn:Er; [discriminate|].
  destruct (result p) as [[[[|t0 ts]|] l]|] eqn:R; try discriminate.
  intros [= <-]. exists p, {| texts := Some (t0 :: ts); lang := l |}, t0, ts.
  apply ok_iff in O. repeat split; try assumption; lia.
Qed.

(** A result with status code 200 that is not a hit can only come from a
    backend that was asked and answered 2xx, without error object and with
    a non-empty list of texts; the result is then built from the first
    text.  No error path, and no rejected call, yields a fresh 200. *)
Theorem fresh_success_inversion (w : World) (sourceLang : option string)
    (targetLang : string) (translateText : option string) (dlSession : string)
    (useCache : bool) (st : State) :
  let r := fst (deeplxTranslate w sourceLang targetLang translateText dlSession useCache st) in
  Result.code r = 200 -> Result.cached r = false ->
  exists t response resultJson res t0 rest,
    translateText = Some t /\ t <> EmptyString /\
    backend w (requestOf w sourceLang targetLang t dlSession) = Responded response /\
    200 <= status response <= 299 /\
    body_json response = JsonValue resultJson /\
    error resultJson = None /\
    result resultJson = Some res /\
    texts res = Some (t0 :: rest) /\
    r = Result.mk 200 None (Some (getRandomNumber (random w))) (Some (text t0))
          (Some (alternatives_of t0)) (lang res) (Some (finalTargetLang targetLang))
          (Some (if String.eqb dlSession EmptyString then "Free" else "Pro")) false.
Proof.
  cbv zeta.
  pose proof (deeplxTranslate_outcome w sourceLang targetLang translateText
                dlSession useCache st) as H.
  destruct H as [text Hno | t e Ht Huc Hlook | t msg Ht Hmiss Hb
                 | t response r success Ht Hmiss Hb Hi];
    intros Hcode Hfresh; try discriminate.
  pose proof (interpret_fresh _ _ _ _ _ _ Hi) as [_ Hs].
  apply Hs in Hcode. subst success.
  destruct (interpret_success_inv _ _ _ _ _ Hi)
    as (p & res & t0 & rest & Hok & Hj & He & Hr & Hts & ->).
  exists t, response, p, res, t0, rest. repeat split; try assumption; lia.
Qed.

Lemma fresh_success_inversion_witness :
  Result.code (fst (deeplxTranslate (sample_world (sample_response 200))
                      (Some "EN") "JA" (Some "hello") EmptyString false fresh)) = 200 /\
  Result.cached (fst (deeplxTranslate (sample_world (sample_response 200))
                        (Some "EN") "JA" (Some "hello") EmptyString false fresh)) = false /\
  exists t response,
    Some "hello" = Some t /\
    backend (sample_world (sample_response 200))
      (requestOf (sample_world (sample_response 200)) (Some "EN") "JA" t EmptyString)
    = Responded response /\
    200 <= status response <= 299.
Proof.
  assert (H1 : Result.code (fst (deeplxTranslate (sample_world (sample_response 200))
                 (Some "EN") "JA" (Some "hello") EmptyString false fresh)) = 200)
    by reflexivity.
  assert (H2 : Result.cached (fst (deeplxTranslate (sample_world (sample_response 200))
                 (Some "EN") "JA" (Some "hello") EmptyString false fresh)) = false)
    by reflexivity.
  split; [exact H1|]. split; [exact H2|].
  destruct (fresh_success_inversion (sample_world (sample_response 200))
              (Some "EN") "JA" (Some "hello") EmptyString false fresh H1 H2)
    as (t & response & _ & _ & _ & _ & Ht & _ & Hb & Hok & _).
  exists t, response. auto.
Defined.

(** ** What the cache can hold *)

Lemma settle_keeps_ok (st : State) : cache_ok st -> cache_ok (settle st).
Proof.
  destruct st as [c p tr]. unfold cache_ok, settle. cbn [cache pending trace].
  intros [Hc Hp]. split; [|intros k e []].
  revert c Hc. induction p as [|[k0 e0] p IH]; intros c Hc; [exact Hc|].
  cbn [foldl fst snd]. apply IH.
  - intros k e Hin. apply (Hp k e). now right.
  - intros k e. rewrite lookup_insert. destruct (decide (k0 = k)) as [->|_].
    + intros [= <-]. apply (Hp k e0). now left.
    + apply Hc.
Qed.

(** If every response in the cache, or on its way to it, is a success as
    the dispatcher stores them, then this still holds after any call of the
    dispatcher and after its store has completed; and every hit then
    returns status code 200 with a translated text: an error is never
    served from the cache. *)
Theorem cache_holds_successes_only (w : World) (sourceLang : option string)
    (targetLang : string) (translateText : option string) (dlSession : string)
    (useCache : bool) (st : State) :
  cache_ok st ->
  let r := fst (deeplxTranslate w sourceLang targetLang translateText dlSession useCache st) in
  let st' := snd (deeplxTranslate w sourceLang targetLang translateText dlSession useCache st) in
  cache_ok st' /\
  cache_ok (settle st') /\
  (Result.cached r = true ->
   Result.code r = 200 /\ Result.message r = None /\ Result.data r <> None).
Proof.
  cbv zeta. intros Hok.
  pose proof (deeplxTranslate_outcome w sourceLang targetLang translateText
                dlSession useCache st) as H.
  assert (Hall : forall r st',
             outcome_of w sourceLang targetLang dlSession useCache st translateText r st' ->
             cache_ok st' /\
             (Result.cached r = true ->
              Result.code r = 200 /\ Result.message r = None /\ Result.data r <> None)).
  { clear H. intros r st' H.
    destruct H as [text Hno | t e Ht Huc Hlook | t msg Ht Hmiss Hb
                   | t response r success Ht Hmiss Hb Hi].
    - split; [exact Hok | discriminate].
    - split; [exact Hok|]. intros _.
      destruct (proj1 Hok _ _ Hlook) as (Hc & _ & Hm & Hd). auto.
    - split; [destruct useCache; exact Hok | discriminate].
    - pose proof (interpret_fresh _ _ _ _ _ _ Hi) as [Hc Hs].
      split; [|rewrite Hc; discriminate].
      destruct success; [|destruct useCache; exact Hok].
      destruct useCache; [|exact Hok]. cbn [andb].
      destruct (interpret_success_inv _ _ _ _ _ Hi)
        as (p & res & t0 & rest & _ & _ & _ & _ & _ & ->).
      destruct Hok as [Hcache Hpend]. split; [exact Hcache|].
      intros k e Hin. cbn in Hin. apply in_app_or in Hin as [Hin|[Hin|[]]].
      + now apply (Hpend k e).
      + injection Hin as <- <-. repeat split. discriminate. }
  destruct (Hall _ _ H) as [H1 H2].
  split; [exact H1|]. split; [now apply settle_keeps_ok | exact H2].
Qed.

Lemma fresh_ok : cache_ok fresh.
Proof.
  split; [intros k e H; simpl in H; rewrite lookup_empty in H; discriminate H
         | intros k e []].
Qed.

Lemma cache_holds_successes_only_witness :
  cache_ok fresh /\
  cache_ok (settle (snd (deeplxTranslate (sample_world (sample_response 200))
                           (Some "EN") "JA" (Some "hello") EmptyString true fresh))).
Proof.
  split; [exact fresh_ok|].
  exact (proj1 (proj2 (cache_holds_successes_only (sample_world (sample_response 200))
                         (Some "EN") "JA" (Some "hello") EmptyString true fresh fresh_ok))).
Defined.

(** ** A store in flight is not seen *)

(** What a call that was not served from the cache adds to the trace: the
    lookup if the cache is in use, the backend call, and the store if one
    was started. *)
Lemma outcome_fresh_trace (w : World) (sourceLang : option string)
    (targetLang dlSession : string) (useCache : bool) (st : State)
    (t : string) (r : Result.t) (st' : State) :
  outcome_of w sourceLang targetLang dlSession useCache st (Some t) r st' ->
  t <> EmptyString -> Result.cached r = false ->
  exists stores,
    trace st' = trace st
                ++ (if useCache then [CacheMatch (keyOf sourceLang targetLang t)] else [])
                ++ BackendCall (requestOf w sourceLang targetLang t dlSession) :: stores /\
    (stores = [] \/
     useCache = true /\
     exists e, stores = [CachePut (keyOf sourceLang targetLang t) e]).
Proof.
  intros H Ht Hfresh. inversion H as [text Hno | t' e Ht' Huc Hlook | t' msg Ht' Hmiss Hb
                                      | t' response r' success Ht' Hmiss Hb Hi]; subst.
  - destruct Hno as [Hno|Hno]; [discriminate|]. injection Hno as ->. contradiction.
  - discriminate Hfresh.
  - exists []. split; [|now left].
    unfold asked, log. destruct useCache; cbn [trace]; rewrite <- ?app_assoc; reflexivity.
  - destruct success, useCache; cbn [andb]; unfold waitUntil_put, asked, log; cbn [trace].
    + eexists. split; [rewrite <- !app_assoc; reflexivity|].
      right. split; [reflexivity|]. eexists. reflexivity.
    + exists []. split; [reflexivity | now left].
    + exists []. split; [rewrite <- !app_assoc; reflexivity | now left].
    + exists []. split; [reflexivity | now left].
Qed.

(** The store of a result is detached from the call: as long as it has not
    completed, a repeated call is served as the first one was, a hit again
    if it was a hit and the backend again if it was not, whatever the
    world.  In the second case the repeated call adds to the trace that the
    first call left a lookup of its own (if the cache is in use), then a
    backend call of its own, then at most the start of a store. *)
Theorem repeated_before_store_completes (w1 w2 : World) (sourceLang : option string)
    (targetLang : string) (translateText : option string) (dlSession : string)
    (useCache : bool) (st : State) :
  let first := deeplxTranslate w1 sourceLang targetLang translateText dlSession useCache st in
  let second :=
    deeplxTranslate w2 sourceLang targetLang translateText dlSession useCache (snd first) in
  Result.cached (fst second) = Result.cached (fst first) /\
  (Result.cached (fst first) = false ->
   forall t, translateText = Some t -> t <> EmptyString ->
     exists stores,
       trace (snd second)
       = trace (snd first)
         ++ (if useCache then [CacheMatch (keyOf sourceLang targetLang t)] else [])
         ++ BackendCall (requestOf w2 sourceLang targetLang t dlSession) :: stores /\
       (stores = [] \/
        useCache = true /\
        exists e, stores = [CachePut (keyOf sourceLang targetLang t) e])).
Proof.
  cbv zeta.
  pose proof (outcome_cache_same _ _ _ _ _ _ _ _ _
                (deeplxTranslate_outcome w1 sourceLang targetLang translateText
                   dlSession useCache st)) as Hcache.
  pose proof (outcome_cached_iff _ _ _ _ _ _ _ _ _
                (deeplxTranslate_outcome w1 sourceLang targetLang translateText
                   dlSession useCache st)) as H1.
  pose proof (outcome_cached_iff _ _ _ _ _ _ _ _ _
                (deeplxTranslate_outcome w2 sourceLang targetLang translateText
                   dlSession useCache
                   (snd (deeplxTranslate w1 sourceLang targetLang translateText dlSession
                           useCache st)))) as H2.
  rewrite Hcache in H2.
  set (first := deeplxTranslate w1 sourceLang targetLang translateText dlSession useCache st)
    in *.
  set (second := deeplxTranslate w2 sourceLang targetLang translateText dlSession
                   useCache (snd first)) in *.
  assert (Heq : Result.cached (fst second) = Result.cached (fst first)).
  { destruct (Result.cached (fst first)) eqn:C1, (Result.cached (fst second)) eqn:C2;
      try reflexivity.
    - pose proof (proj2 H2 (proj1 H1 eq_refl)) as X. discriminate X.
    - pose proof (proj2 H1 (proj1 H2 eq_refl)) as X. discriminate X. }
  split; [exact Heq|].
  intros Hfresh t -> Ht. rewrite Hfresh in Heq.
  apply (outcome_fresh_trace _ _ _ _ _ _ _ _ _
           (deeplxTranslate_outcome w2 sourceLang targetLang (Some t) dlSession
              useCache (snd first)) Ht Heq).
Qed.

Lemma repeated_before_store_completes_witness :
  Result.cached (fst (deeplxTranslate (sample_world (sample_response 200))
                        (Some "EN") "JA" (Some "hello") EmptyString true fresh)) = false /\
  Some "hello" = Some "hello" /\ "hello" <> EmptyString /\
  exists stores,
    trace (snd (deeplxTranslate (sample_world (sample_response 200))
                  (Some "EN") "JA" (Some "hello") EmptyString true
                  (snd (deeplxTranslate (sample_world (sample_response 200))
                          (Some "EN") "JA" (Some "hello") EmptyString true fresh))))
    = trace (snd (deeplxTranslate (sample_world (sample_response 200))
                    (Some "EN") "JA" (Some "hello") EmptyString true fresh))
      ++ [CacheMatch (keyOf (Some "EN") "JA" "hello")]
      ++ BackendCall (requestOf (sample_world (sample_response 200))
                        (Some "EN") "JA" "hello" EmptyString) :: stores /\
    (stores = [] \/
     true = true /\ exists e, stores = [CachePut (keyOf (Some "EN") "JA" "hello") e]).
Proof.
  assert (H1 : Result.cached (fst (deeplxTranslate (sample_world (sample_response 200))
                 (Some "EN") "JA" (Some "hello") EmptyString true fresh)) = false)
    by reflexivity.
  assert (H2 : "hello" <> EmptyString) by discriminate.
  split; [exact H1|]. split; [reflexivity|]. split; [exact H2|].
  exact (proj2 (repeated_before_store_completes (sample_world (sample_response 200))
                  (sample_world (sample_response 200)) (Some "EN") "JA" (Some "hello")
                  EmptyString true fresh) H1 "hello" eq_refl H2).
Defined.

(** * Further properties of the gate *)

(** ** Splitting the [Authorization] header *)

Lemma split_no_sep (sep : ascii) (s : string) :
  count_char sep s = O -> JS.split sep s = [s].
Proof.
  induction s as [|c r IH]; [reflexivity|]. cbn [count_char JS.split].
  destruct (Ascii.eqb c sep); [discriminate|]. intros H. now rewrite (IH H).
Qed.

Lemma split_at_sep (sep : ascii) (a r : string) :
  count_char sep a = O ->
  JS.split sep (a +:+ String sep r) = a :: JS.split sep r.
Proof.
  induction a as [|c a IH]; cbn [count_char String.append JS.split].
  - intros _. now rewrite Ascii.eqb_refl.
  - destruct (Ascii.eqb c sep); [discriminate|]. intros H. now rewrite (IH H).
Qed.

(** Joining the pieces of a split with the separator gives the string
    back, and no piece holds the separator. *)
Lemma join_split (sep : ascii) (s : string) :
  join (String sep EmptyString) (JS.split sep s) = s /\
  Forall (fun p => count_char sep p = O) (JS.split sep s).
Proof.
  induction s as [|c r [IHj IHf]]; [split; [reflexivity | repeat constructor]|].
  cbn [JS.split]. pose proof (split_length sep r) as Hlen.
  destruct (Ascii.eqb_spec c sep) as [->|Hne].
  - split; [|constructor; [reflexivity | exact IHf]].
    destruct (JS.split sep r) as [|h t]; [discriminate Hlen|].
    rewrite <- IHj. reflexivity.
  - destruct (JS.split sep r) as [|h t]; [discriminate Hlen|]. split.
    + rewrite <- IHj. destruct t as [|h' t]; reflexivity.
    + inversion IHf as [|? ? Hh Ht]; subst. constructor; [|exact Ht].
      cbn [count_char]. destruct (Ascii.eqb_spec c sep); [contradiction | exact Hh].
Qed.

Lemma tokenInHeader_is (authHeader : option string) (t : string) :
  t <> EmptyString ->
  (tokenInHeader authHeader = t <->
   count_char " " t = O /\
   (authHeader = Some ("Bearer " +:+ t) \/ authHeader = Some ("DeepL-Auth-Key " +:+ t))).
Proof.
  intros Ht. split.
  - unfold tokenInHeader. destruct authHeader as [h|]; [|intros E; now subst t].
    destruct (String.eqb h EmptyString); [intros E; now subst t|].
    destruct (join_split " " h) as [Hj Hf].
    destruct (JS.split " " h) as [|scheme [|token [|x l]]];
      try (intros E; now subst t).
    cbn [join] in Hj.
    inversion Hf as [|? ? _ Hf']; subst. inversion Hf' as [|? ? Htok _]; subst.
    destruct (String.eqb_spec scheme "Bearer") as [->|_].
    + cbn [orb]. intros <-. split; [exact Htok|]. left. reflexivity.
    + destruct (String.eqb_spec scheme "DeepL-Auth-Key") as [->|_].
      * cbn [orb]. intros <-. split; [exact Htok|]. right. reflexivity.
      * cbn [orb]. intros E. now subst t.
  - intros [Hsp [-> | ->]]; unfold tokenInHeader.
    + change ("Bearer " +:+ t) with ("Bearer" +:+ String " " t).
      rewrite split_at_sep by reflexivity. rewrite (split_no_sep _ _ Hsp). reflexivity.
    + change ("DeepL-Auth-Key " +:+ t) with ("DeepL-Auth-Key" +:+ String " " t).
      rewrite split_at_sep by reflexivity. rewrite (split_no_sep _ _ Hsp). reflexivity.
Qed.

Lemma authMiddleware_unfold (request : Request) (env : Env) :
  authMiddleware request env =
  match query request with
  | None => Raised
  | Some tokenInQuery =>
      if negb (option_string_eqb tokenInQuery (TOKEN env))
         && negb (option_string_eqb (Some (tokenInHeader (authorization request)))
                    (TOKEN env))
      then Returned (Some invalid_token) else Returned None
  end.
Proof. reflexivity. Qed.

Lemma option_string_eqb_eq (a b : option string) :
  option_string_eqb a b = true <-> a = b.
Proof.
  destruct a as [x|], b as [y|]; simpl; try (split; [discriminate | discriminate]);
    [|split; reflexivity].
  rewrite String.eqb_eq. split; [now intros -> | now intros [= ->]].
Qed.

(** With a non-empty secret [t], a request whose query has been parsed
    passes the check exactly when its [token] query parameter is [t], or
    its [Authorization] header is ["Bearer t"] or ["DeepL-Auth-Key t"] and
    [t] holds no space. *)
Lemma authMiddleware_pass_iff (request : Request) (env : Env) (t : string)
    (tokenInQuery : option string) :
  query request = Some tokenInQuery -> TOKEN env = Some t -> t <> EmptyString ->
  (authMiddleware request env = Returned None <->
   tokenInQuery = Some t \/
   (count_char " " t = O /\
    (authorization request = Some ("Bearer " +:+ t) \/
     authorization request = Some ("DeepL-Auth-Key " +:+ t)))).
Proof.
  intros HQ HT Ht. rewrite authMiddleware_unfold, HQ, HT.
  rewrite <- (tokenInHeader_is (authorization request) t Ht).
  destruct (option_string_eqb tokenInQuery (Some t)) eqn:Q.
  - apply option_string_eqb_eq in Q. cbn. split; auto.
  - assert (Hq : tokenInQuery <> Some t).
    { intros E. apply option_string_eqb_eq in E. congruence. }
    cbn [negb andb option_string_eqb].
    destruct (String.eqb_spec (tokenInHeader (authorization request)) t) as [E|N]; cbn.
    + split; auto.
    + split; [discriminate|]. intros [E|E]; contradiction.
Qed.

(** Where the gate applies, [fetch] throws: the request it hands to
    [authMiddleware] has no [query] property. *)
Lemma fetch_raises (handle : Incoming -> Env -> Outcome HttpResponse) (request : Incoming)
    (env : Env) :
  auth_applies env request = true -> fetch handle request env = Raised.
Proof. intros Ha. unfold fetch. rewrite Ha. reflexivity. Qed.

Lemma fetch_unchecked (handle : Incoming -> Env -> Outcome HttpResponse)
    (request : Incoming) (env : Env) :
  auth_applies env request = false -> fetch handle request env = handle request env.
Proof. intros Ha. unfold fetch. rewrite Ha. reflexivity. Qed.

(** ** The check against a configured secret *)

(** [authMiddleware] reads [request.query.token] first: on a request
    object without a [query] property, which is what [fetch] passes, it
    throws whatever the secret and the header.  On a request whose query a
    router has parsed, and with a non-empty secret [t] configured, it lets
    the request pass exactly when the [token] query parameter is [t], or
    the [Authorization] header is ["Bearer t"] or ["DeepL-Auth-Key t"] and
    [t] holds no space; any other such request, for instance one with
    another scheme, a doubled space or a secret that holds a space sent in
    the header, is answered 401. *)
Theorem authMiddleware_private (request : Request) (env : Env) (t : string) :
  (query request = None -> authMiddleware request env = Raised) /\
  (forall tokenInQuery : option string,
     query request = Some tokenInQuery -> TOKEN env = Some t -> t <> EmptyString ->
     (authMiddleware request env = Returned None <->
      tokenInQuery = Some t \/
      (count_char " " t = O /\
       (authorization request = Some ("Bearer " +:+ t) \/
        authorization request = Some ("DeepL-Auth-Key " +:+ t)))) /\
     (authMiddleware request env <> Returned None ->
      authMiddleware request env = Returned (Some invalid_token) /\
      http_status invalid_token = 401)).
Proof.
  split.
  - intros HQ. rewrite authMiddleware_unfold, HQ. reflexivity.
  - intros tokenInQuery HQ HT Ht. split; [now apply authMiddleware_pass_iff|].
    rewrite authMiddleware_unfold, HQ.
    destruct (negb _ && negb _); [split; reflexivity | contradiction].
Qed.

Lemma authMiddleware_private_witness :
  (query {| query := None; authorization := Some "Bearer s3cret" |} = None /\
   authMiddleware {| query := None; authorization := Some "Bearer s3cret" |}
     {| TOKEN := Some "s3cret"; DL_SESSION := None |} = Raised) /\
  TOKEN {| TOKEN := Some "s3cret"; DL_SESSION := None |} = Some "s3cret" /\
  "s3cret" <> EmptyString /\
  authMiddleware {| query := Some None; authorization := Some "Bearer s3cret" |}
    {| TOKEN := Some "s3cret"; DL_SESSION := None |} = Returned None /\
  authMiddleware {| query := Some None; authorization := Some "Basic s3cret" |}
    {| TOKEN := Some "s3cret"; DL_SESSION := None |} = Returned (Some invalid_token).
Proof.
  assert (Ht : "s3cret" <> EmptyString) by discriminate.
  split; [split; [reflexivity|]|].
  - exact (proj1 (authMiddleware_private
                    {| query := None; authorization := Some "Bearer s3cret" |}
                    {| TOKEN := Some "s3cret"; DL_SESSION := None |} "s3cret") eq_refl).
  - split; [reflexivity|]. split; [exact Ht|]. split.
    + apply (proj1 (proj2 (authMiddleware_private
                      {| query := Some None; authorization := Some "Bearer s3cret" |}
                      {| TOKEN := Some "s3cret"; DL_SESSION := None |} "s3cret")
                      None eq_refl eq_refl Ht)).
      right. split; [reflexivity|]. left. reflexivity.
    + apply (proj2 (proj2 (authMiddleware_private
                      {| query := Some None; authorization := Some "Basic s3cret" |}
                      {| TOKEN := Some "s3cret"; DL_SESSION := None |} "s3cret")
                      None eq_refl eq_refl Ht)).
      discriminate.
Defined.

(** ** The gate of [fetch] *)

(** In private mode, [fetch] throws on every request whose path starts
    with one of the three endpoint prefixes, whatever token or header the
    request carries and whatever the router would do with it: the gate
    calls [authMiddleware] on the request as received, which has no [query]
    property.  A path that starts with none of the prefixes, such as the
    root, goes to the router unchecked. *)
Theorem gate_private (handle : Incoming -> Env -> Outcome HttpResponse)
    (request : Incoming) (env : Env) :
  isPrivate env = true ->
  (JS.startsWith (url_pathname request) "/translate" = true \/
   JS.startsWith (url_pathname request) "/v1/translate" = true \/
   JS.startsWith (url_pathname request) "/v2/translate" = true ->
   fetch handle request env = Raised) /\
  (JS.startsWith (url_pathname request) "/translate" = false ->
   JS.startsWith (url_pathname request) "/v1/translate" = false ->
   JS.startsWith (url_pathname request) "/v2/translate" = false ->
   fetch handle request env = handle request env).
Proof.
  intros Hp. split.
  - intros Hpath. apply fetch_raises. unfold auth_applies. rewrite Hp.
    destruct Hpath as [-> | [-> | ->]]; rewrite ?orb_true_r; reflexivity.
  - intros H0 H1 H2. apply fetch_unchecked. unfold auth_applies.
    rewrite H0, H1, H2, andb_false_r. reflexivity.
Qed.

Lemma gate_private_witness :
  isPrivate {| TOKEN := Some "s3cret"; DL_SESSION := None |} = true /\
  JS.startsWith "/translate" "/translate" = true /\
  fetch (fun _ _ => Returned {| http_status := 200; http_headers := []; http_body := "ok" |})
    {| url_pathname := "/translate"; url_token := Some "s3cret";
       header_authorization := Some "Bearer s3cret" |}
    {| TOKEN := Some "s3cret"; DL_SESSION := None |} = Raised /\
  fetch (fun _ _ => Returned {| http_status := 200; http_headers := []; http_body := "ok" |})
    {| url_pathname := "/"; url_token := None; header_authorization := None |}
    {| TOKEN := Some "s3cret"; DL_SESSION := None |}
  = Returned {| http_status := 200; http_headers := []; http_body := "ok" |}.
Proof.
  split; [reflexivity|]. split; [reflexivity|]. split.
  - exact (proj1 (gate_private
             (fun _ _ => Returned {| http_status := 200; http_headers := [];
                                     http_body := "ok" |})
             {| url_pathname := "/translate"; url_token := Some "s3cret";
                header_authorization := Some "Bearer s3cret" |}
             {| TOKEN := Some "s3cret"; DL_SESSION := None |} eq_refl)
             (or_introl eq_refl)).
  - exact (proj2 (gate_private
             (fun _ _ => Returned {| http_status := 200; http_headers := [];
                                     http_body := "ok" |})
             {| url_pathname := "/"; url_token := None; header_authorization := None |}
             {| TOKEN := Some "s3cret"; DL_SESSION := None |} eq_refl)
             eq_refl eq_refl eq_refl).
Defined.

(** Without a secret ([env.TOKEN] undefined or empty), the gate still runs
    the check on paths that start with [/v1/translate] or [/v2/translate],
    and [fetch] throws on them as it does in private mode, with or without
    a [token] parameter or an [Authorization] header; every other path,
    [/translate] among them, goes to the router unchecked. *)
Theorem gate_without_secret (handle : Incoming -> Env -> Outcome HttpResponse)
    (request : Incoming) (env : Env) :
  isPrivate env = false ->
  (JS.startsWith (url_pathname request) "/v1/translate" = true \/
   JS.startsWith (url_pathname request) "/v2/translate" = true ->
   fetch handle request env = Raised) /\
  (JS.startsWith (url_pathname request) "/v1/translate" = false ->
   JS.startsWith (url_pathname request) "/v2/translate" = false ->
   fetch handle request env = handle request env).
Proof.
  intros Hp. split.
  - intros Hpath. apply fetch_raises. unfold auth_applies. rewrite Hp. cbn [andb orb].
    destruct Hpath as [-> | ->]; rewrite ?orb_true_r; reflexivity.
  - intros H1 H2. apply fetch_unchecked. unfold auth_applies.
    rewrite Hp, H1, H2. reflexivity.
Qed.

Lemma gate_without_secret_witness :
  isPrivate {| TOKEN := None; DL_SESSION := None |} = false /\
  JS.startsWith "/v1/translate" "/v1/translate" = true /\
  fetch (fun _ _ => Returned {| http_status := 200; http_headers := []; http_body := "ok" |})
    {| url_pathname := "/v1/translate"; url_token := None; header_authorization := None |}
    {| TOKEN := None; DL_SESSION := None |} = Raised /\
  fetch (fun _ _ => Returned {| http_status := 200; http_headers := []; http_body := "ok" |})
    {| url_pathname := "/translate"; url_token := None; header_authorization := None |}
    {| TOKEN := None; DL_SESSION := None |}
  = Returned {| http_status := 200; http_headers := []; http_body := "ok" |}.
Proof.
  split; [reflexivity|]. split; [reflexivity|]. split.
  - exact (proj1 (gate_without_secret
             (fun _ _ => Returned {| http_status := 200; http_headers := [];
                                     http_body := "ok" |})
             {| url_pathname := "/v1/translate"; url_token := None;
                header_authorization := None |}
             {| TOKEN := None; DL_SESSION := None |} eq_refl) (or_introl eq_refl)).
  - exact (proj2 (gate_without_secret
             (fun _ _ => Returned {| http_status := 200; http_headers := [];
                                     http_body := "ok" |})
             {| url_pathname := "/translate"; url_token := None;
                header_authorization := None |}
             {| TOKEN := None; DL_SESSION := None |} eq_refl) eq_refl eq_refl).
Defined.

(** * Properties of the endpoints *)

Lemma outcome_off (w : World) (sourceLang : option string)
    (targetLang dlSession : string) (st : State)
    (translateText : option string) (r : Result.t) (st' : State) :
  outcome_of w sourceLang targetLang dlSession false st translateText r st' ->
  Result.cached r = false /\ cache st' = cache st /\ pending st' = pending st /\
  (trace st' = trace st \/
   exists t, translateText = Some t /\
             trace st' = trace st
                         ++ [BackendCall (requestOf w sourceLang targetLang t dlSession)]).
Proof.
  intros H. inversion H as [text Hno | t e Ht Huc Hlook | t msg Ht Hmiss Hb
                            | t response r' success Ht Hmiss Hb Hi]; subst.
  - repeat split. now left.
  - discriminate Huc.
  - repeat split. right. exists t. split; reflexivity.
  - apply interpret_fresh in Hi as [Hc _]. rewrite andb_false_r.
    repeat split; [exact Hc|]. right. exists t. split; reflexivity.
Qed.

Lemma outcome_fresh_success (w : World) (sourceLang : option string)
    (targetLang dlSession : string) (useCache : bool) (st : State)
    (translateText : option string) (r : Result.t) (st' : State) :
  outcome_of w sourceLang targetLang dlSession useCache st translateText r st' ->
  Result.code r = 200 -> Result.cached r = false ->
  exists t,
    translateText = Some t /\ t <> EmptyString /\
    Result.method r = Some (if String.eqb dlSession EmptyString then "Free" else "Pro") /\
    st' = if useCache
          then waitUntil_put (keyOf sourceLang targetLang t) (cacheableResponse r)
                 (asked w sourceLang targetLang t dlSession useCache st)
          else asked w sourceLang targetLang t dlSession useCache st.
Proof.
  intros H Hcode Hfresh.
  inversion H as [text Hno | t e Ht Huc Hlook | t msg Ht Hmiss Hb
                  | t response r' success Ht Hmiss Hb Hi]; subst; try discriminate.
  pose proof (interpret_fresh _ _ _ _ _ _ Hi) as [_ Hs].
  apply Hs in Hcode. subst success.
  destruct (interpret_success_inv _ _ _ _ _ Hi)
    as (p & res & t0 & rest & _ & _ & _ & _ & _ & ->).
  exists t. split; [reflexivity|]. split; [exact Ht|]. split; [reflexivity|].
  destruct useCache; reflexivity.
Qed.

(** Once the store of a fresh success has completed, any call for the same
    languages and text with the cache in use is served that result, marked
    as a hit, whatever its world and its session credential. *)
Lemma stored_then_hit (w w2 : World) (sourceLang : option string)
    (targetLang dlSession dlSession2 : string) (st : State)
    (translateText : option string) (r : Result.t) (st' : State) :
  outcome_of w sourceLang targetLang dlSession true st translateText r st' ->
  Result.code r = 200 -> Result.cached r = false ->
  exists t, translateText = Some t /\
    deeplxTranslate w2 sourceLang targetLang translateText dlSession2 true (settle st')
    = (Result.set_cached true r,
       log (CacheMatch (keyOf sourceLang targetLang t)) (settle st')).
Proof.
  intros H Hcode Hfresh.
  destruct (outcome_fresh_success _ _ _ _ _ _ _ _ _ H Hcode Hfresh)
    as (t & -> & Ht & _ & ->).
  exists t. split; [reflexivity|].
  now rewrite (deeplxTranslate_hit w2 _ _ _ _ _ _ Ht (settle_after_put _ _ _)).
Qed.

Lemma translateWith_returned (w : World) (sourceLang targetLang translateText : option string)
    (dlSession : string) (useCache : bool) (st : State) (r : Result.t) (st' : State) :
  translateWith w sourceLang targetLang translateText dlSession useCache st
    = Returned (r, st') ->
  (exists tl, targetLang = Some tl /\
     deeplxTranslate w sourceLang tl translateText dlSession useCache st = (r, st')) \/
  (targetLang = None /\ r = Result.failure 400 "No text to translate." /\ st' = st).
Proof.
  unfold translateWith. destruct targetLang as [tl|].
  - intros [= E]. left. now exists tl.
  - destruct translateText as [t|]; [destruct (String.eqb t EmptyString)|];
      intros [= <- <-]; right; auto.
Qed.

(** ** Empty texts *)

(** Every endpoint answers a missing or empty text with status 400 and the
    message ["No text to translate."], in the simple shape, without any
    effect, whatever the other keys of the body, a missing [target_lang]
    included.  For [/v2/translate] this covers an empty array and an array
    of one empty string; for [/v1/translate] it needs the session to be
    configured. *)
Theorem endpoints_reject_empty_text (w : World) (env : Env) (st : State)
    (body : TranslateBody) (body2 : OfficialBody) :
  let rejected :=
    Returned (simpleReply (Result.failure 400 "No text to translate."), st) in
  (in_text body = None \/ in_text body = Some EmptyString ->
   handleTranslateRequest w body env st = rejected /\
   (sessionOf env <> EmptyString -> v1Translate w body env st = rejected)) /\
  (In (v2_text body2)
      [None; Some (TextString EmptyString); Some (TextArray []);
       Some (TextArray [EmptyString])] ->
   v2Translate w body2 env st = rejected) /\
  reply_status (simpleReply (Result.failure 400 "No text to translate.")) = 400.
Proof.
  cbv zeta. split; [|split; [|reflexivity]].
  - intros Hno. split.
    + unfold handleTranslateRequest, translateWith.
      destruct (in_target_lang body), Hno as [-> | ->]; reflexivity.
    + intros Hs. unfold v1Translate.
      destruct (String.eqb_spec (sessionOf env) EmptyString) as [E|_]; [contradiction|].
      unfold translateWith.
      destruct (in_target_lang body), Hno as [-> | ->]; reflexivity.
  - intros Hin. unfold v2Translate, translateWith. simpl in Hin.
    destruct (v2_target_lang body2);
      repeat (destruct Hin as [<-|Hin]; [reflexivity|]); destruct Hin.
Qed.

Lemma endpoints_reject_empty_text_witness :
  (Some EmptyString = None \/ Some EmptyString = Some EmptyString) /\
  handleTranslateRequest (sample_world (sample_response 200))
    {| in_text := Some EmptyString; in_source_lang := None; in_target_lang := None;
       in_cache := Some true |}
    {| TOKEN := None; DL_SESSION := None |} fresh
  = Returned (simpleReply (Result.failure 400 "No text to translate."), fresh) /\
  In (Some (TextArray [])) [None; Some (TextString EmptyString); Some (TextArray []);
                            Some (TextArray [EmptyString])] /\
  v2Translate (sample_world (sample_response 200))
    {| v2_text := Some (TextArray []); v2_target_lang := Some "JA"; v2_cache := None |}
    {| TOKEN := None; DL_SESSION := None |} fresh
  = Returned (simpleReply (Result.failure 400 "No text to translate."), fresh).
Proof.
  assert (H1 : Some EmptyString = None \/ Some EmptyString = Some EmptyString)
    by (right; reflexivity).
  assert (H2 : In (Some (TextArray []))
                 [None; Some (TextString EmptyString); Some (TextArray []);
                  Some (TextArray [EmptyString])])
    by (right; right; left; reflexivity).
  pose proof (endpoints_reject_empty_text (sample_world (sample_response 200))
                {| TOKEN := None; DL_SESSION := None |} fresh
                {| in_text := Some EmptyString; in_source_lang := None;
                   in_target_lang := None; in_cache := Some true |}
                {| v2_text := Some (TextArray []); v2_target_lang := Some "JA";
                   v2_cache := None |}) as (Ha & Hb & _).
  split; [exact H1|]. split; [exact (proj1 (Ha H1))|]. split; [exact H2|].
  exact (Hb H2).
Defined.

(** ** A missing target language *)

(** A body with a text but without [target_lang] makes the handlers of
    [/translate] and [/v2/translate] throw, whatever the world, the cache
    and the mode, and no reply is built; so does the handler of
    [/v1/translate] when a session is configured.  Without a session that
    handler answers 401 before it reads the body, and leaves the state as
    it is. *)
Theorem missing_target_lang_throws (w : World) (env : Env) (st : State)
    (body : TranslateBody) (body2 : OfficialBody) (t : string) :
  t <> EmptyString ->
  (in_text body = Some t -> in_target_lang body = None ->
   handleTranslateRequest w body env st = Raised /\
   (sessionOf env <> EmptyString -> v1Translate w body env st = Raised) /\
   (sessionOf env = EmptyString ->
    v1Translate w body env st
    = Returned ({| reply_status := 401;
                   reply_headers := [];
                   reply_body :=
                     MessageShape 401
                       "DL_SESSION is not configured in worker environment." |},
                st))) /\
  (joinedText (v2_text body2) = Some t -> v2_target_lang body2 = None ->
   v2Translate w body2 env st = Raised).
Proof.
  intros Ht. apply String.eqb_neq in Ht. split.
  - intros Htext Htl. split; [|split].
    + unfold handleTranslateRequest, translateWith. now rewrite Htext, Htl, Ht.
    + intros Hs. unfold v1Translate.
      destruct (String.eqb_spec (sessionOf env) EmptyString) as [E|_]; [contradiction|].
      unfold translateWith. now rewrite Htext, Htl, Ht.
    + intros Hs. unfold v1Translate. rewrite Hs. reflexivity.
  - intros Htext Htl. unfold v2Translate, translateWith. now rewrite Htext, Htl, Ht.
Qed.

Lemma missing_target_lang_throws_witness :
  "hello" <> EmptyString /\
  handleTranslateRequest (sample_world (sample_response 200))
    {| in_text := Some "hello"; in_source_lang := Some "EN"; in_target_lang := None;
       in_cache := None |}
    {| TOKEN := None; DL_SESSION := None |} fresh = Raised /\
  sessionOf {| TOKEN := None; DL_SESSION := Some "pro-session" |} <> EmptyString /\
  v1Translate (sample_world (sample_response 200))
    {| in_text := Some "hello"; in_source_lang := Some "EN"; in_target_lang := None;
       in_cache := None |}
    {| TOKEN := None; DL_SESSION := Some "pro-session" |} fresh = Raised /\
  sessionOf {| TOKEN := None; DL_SESSION := None |} = EmptyString /\
  v1Translate (sample_world (sample_response 200))
    {| in_text := Some "hello"; in_source_lang := Some "EN"; in_target_lang := None;
       in_cache := None |}
    {| TOKEN := None; DL_SESSION := None |} fresh
  = Returned ({| reply_status := 401;
                 reply_headers := [];
                 reply_body :=
                   MessageShape 401
                     "DL_SESSION is not configured in worker environment." |},
              fresh) /\
  v2Translate (sample_world (sample_response 200))
    {| v2_text := Some (TextArray ["hel"; "lo"]); v2_target_lang := None;
       v2_cache := None |}
    {| TOKEN := None; DL_SESSION := None |} fresh = Raised.
Proof.
  assert (H1 : "hello" <> EmptyString) by discriminate.
  assert (H2 : join newline ["hel"; "lo"] <> EmptyString) by discriminate.
  assert (H3 : sessionOf {| TOKEN := None; DL_SESSION := Some "pro-session" |}
               <> EmptyString) by discriminate.
  split; [exact H1|]. split.
  - exact (proj1 (proj1 (missing_target_lang_throws (sample_world (sample_response 200))
             {| TOKEN := None; DL_SESSION := None |} fresh
             {| in_text := Some "hello"; in_source_lang := Some "EN";
                in_target_lang := None; in_cache := None |}
             {| v2_text := None; v2_target_lang := None; v2_cache := None |}
             "hello" H1) eq_refl eq_refl)).
  - split; [exact H3|]. split.
    + exact (proj1 (proj2 (proj1 (missing_target_lang_throws
               (sample_world (sample_response 200))
               {| TOKEN := None; DL_SESSION := Some "pro-session" |} fresh
               {| in_text := Some "hello"; in_source_lang := Some "EN";
                  in_target_lang := None; in_cache := None |}
               {| v2_text := None; v2_target_lang := None; v2_cache := None |}
               "hello" H1) eq_refl eq_refl)) H3).
    + split; [reflexivity|]. split.
      * exact (proj2 (proj2 (proj1 (missing_target_lang_throws
                 (sample_world (sample_response 200))
                 {| TOKEN := None; DL_SESSION := None |} fresh
                 {| in_text := Some "hello"; in_source_lang := Some "EN";
                    in_target_lang := None; in_cache := None |}
                 {| v2_text := None; v2_target_lang := None; v2_cache := None |}
                 "hello" H1) eq_refl eq_refl)) eq_refl).
      * exact (proj2 (missing_target_lang_throws (sample_world (sample_response 200))
                 {| TOKEN := None; DL_SESSION := None |} fresh
                 {| in_text := None; in_source_lang := None; in_target_lang := None;
                    in_cache := None |}
                 {| v2_text := Some (TextArray ["hel"; "lo"]); v2_target_lang := None;
                    v2_cache := None |}
                 (join newline ["hel"; "lo"]) H2) eq_refl eq_refl).
Defined.

(** ** The default cache policy *)

Lemma translateWith_off (w : World) (sourceLang targetLang translateText : option string)
    (dlSession : string) (st : State) (r : Result.t) (st' : State) :
  translateWith w sourceLang targetLang translateText dlSession false st
    = Returned (r, st') ->
  Result.cached r = false /\ cache_untouched st st'.
Proof.
  intros H. apply translateWith_returned in H as [(tl & -> & E) | (_ & -> & ->)].
  - pose proof (deeplxTranslate_outcome w sourceLang tl translateText dlSession false st)
      as Ho. rewrite E in Ho. apply outcome_off in Ho as (Hc & H1 & H2 & H3).
    split; [exact Hc|]. split; [exact H1|]. split; [exact H2|].
    destruct H3 as [H3 | (t & _ & H3)]; [now left | right; eauto].
  - split; [reflexivity|]. split; [reflexivity|]. split; [reflexivity|]. now left.
Qed.

(** Without a [cache] key in the body, the handlers of [/translate] and
    [/v2/translate] in private mode, and the handler of [/v1/translate] in
    either mode, leave the cache alone: no lookup, no store, and on each of
    the three a reply that is not marked as served from the cache. *)
Theorem default_policy_bypasses_cache (w : World) (env : Env) (st : State)
    (body : TranslateBody) (body2 : OfficialBody) :
  (in_cache body = None ->
   (isPrivate env = true ->
    forall reply st', handleTranslateRequest w body env st = Returned (reply, st') ->
      cache_untouched st st' /\ reply_not_cached reply /\
      exists r, reply_body reply = SimpleShape r /\ Result.cached r = false) /\
   (forall reply st', v1Translate w body env st = Returned (reply, st') ->
      cache_untouched st st' /\ reply_not_cached reply)) /\
  (v2_cache body2 = None -> isPrivate env = true ->
   forall reply st', v2Translate w body2 env st = Returned (reply, st') ->
     cache_untouched st st' /\ reply_not_cached reply).
Proof.
  split.
  - intros Hc. split.
    + intros Hp reply st'. unfold handleTranslateRequest. rewrite Hc, Hp. cbn [cacheChoice negb].
      destruct (translateWith _ _ _ _ _ _ _) as [[r s]|] eqn:E; [|discriminate].
      intros [= <- <-]. apply translateWith_off in E as [Hcached Hun].
      split; [exact Hun|]. split; [exact Hcached|].
      exists r. split; [reflexivity | exact Hcached].
    + intros reply st'. unfold v1Translate. rewrite Hc. cbn [cacheChoice].
      destruct (String.eqb (sessionOf env) EmptyString).
      * intros [= <- <-]. split; [|exact I].
        split; [reflexivity|]. split; [reflexivity|]. now left.
      * destruct (translateWith _ _ _ _ _ _ _) as [[r s]|] eqn:E; [|discriminate].
        intros [= <- <-]. apply translateWith_off in E as [Hcached Hun].
        split; [exact Hun | exact Hcached].
  - intros Hc Hp reply st'. unfold v2Translate. rewrite Hc, Hp. cbn [cacheChoice negb].
    destruct (translateWith _ _ _ _ _ _ _) as [[r s]|] eqn:E; [|discriminate].
    apply translateWith_off in E as [Hcached Hun].
    destruct (Result.code r =? 200); intros [= <- <-]; (split; [exact Hun | exact Hcached]).
Qed.

Lemma default_policy_bypasses_cache_witness :
  in_cache {| in_text := Some "hello"; in_source_lang := None;
              in_target_lang := Some "JA"; in_cache := None |} = None /\
  v2_cache {| v2_text := Some (TextString "hello"); v2_target_lang := Some "JA";
              v2_cache := None |} = None /\
  isPrivate {| TOKEN := Some "s3cret"; DL_SESSION := Some "pro-session" |} = true /\
  (forall reply st',
     handleTranslateRequest (sample_world (sample_response 200))
       {| in_text := Some "hello"; in_source_lang := None;
          in_target_lang := Some "JA"; in_cache := None |}
       {| TOKEN := Some "s3cret"; DL_SESSION := Some "pro-session" |} fresh
     = Returned (reply, st') ->
     cache_untouched fresh st' /\ reply_not_cached reply) /\
  (forall reply st',
     v1Translate (sample_world (sample_response 200))
       {| in_text := Some "hello"; in_source_lang := None;
          in_target_lang := Some "JA"; in_cache := None |}
       {| TOKEN := Some "s3cret"; DL_SESSION := Some "pro-session" |} fresh
     = Returned (reply, st') ->
     cache_untouched fresh st' /\ reply_not_cached reply) /\
  (forall reply st',
     v2Translate (sample_world (sample_response 200))
       {| v2_text := Some (TextString "hello"); v2_target_lang := Some "JA";
          v2_cache := None |}
       {| TOKEN := Some "s3cret"; DL_SESSION := Some "pro-session" |} fresh
     = Returned (reply, st') ->
     cache_untouched fresh st' /\ reply_not_cached reply).
Proof.
  split; [reflexivity|]. split; [reflexivity|]. split; [reflexivity|].
  pose proof (default_policy_bypasses_cache
           (sample_world (sample_response 200))
           {| TOKEN := Some "s3cret"; DL_SESSION := Some "pro-session" |} fresh
           {| in_text := Some "hello"; in_source_lang := None;
              in_target_lang := Some "JA"; in_cache := None |}
           {| v2_text := Some (TextString "hello"); v2_target_lang := Some "JA";
              v2_cache := None |}) as [H1 H2].
  destruct (H1 eq_refl) as [Ht Hv1]. split; [|split].
  - intros reply st' E. destruct (Ht eq_refl reply st' E) as (Hu & Hn & _).
    split; [exact Hu | exact Hn].
  - exact Hv1.
  - exact (H2 eq_refl eq_refl).
Defined.

(** In public mode and without a [cache] key in the body, [/translate]
    uses the cache: after a fresh success (status 200, not marked as
    cached) whose store has completed, the same request is answered from
    the cache, in any world: the same result with [cached] set, after a
    lookup and nothing else. *)
Theorem public_default_serves_repeat (w1 w2 : World) (env : Env) (st st1 : State)
    (body : TranslateBody) (r1 : Result.t) :
  isPrivate env = false ->
  in_cache body = None ->
  handleTranslateRequest w1 body env st = Returned (simpleReply r1, st1) ->
  Result.code r1 = 200 ->
  Result.cached r1 = false ->
  exists key,
    handleTranslateRequest w2 body env (settle st1)
    = Returned (simpleReply (Result.set_cached true r1),
                log (CacheMatch key) (settle st1)).
Proof.
  intros Hp Hc. unfold handleTranslateRequest. rewrite Hc, Hp. cbn [cacheChoice negb].
  destruct (translateWith w1 _ _ _ _ _ _) as [[r s]|] eqn:E; [|discriminate].
  intros [= <- <-] Hcode Hfresh.
  apply translateWith_returned in E as [(tl & Htl & E) | (_ & -> & _)];
    [|discriminate Hcode].
  pose proof (deeplxTranslate_outcome w1 (in_source_lang body) tl (in_text body)
                EmptyString true st) as Ho.
  rewrite E in Ho.
  destruct (stored_then_hit w1 w2 _ _ _ EmptyString _ _ _ _ Ho Hcode Hfresh)
    as (t & _ & Hhit).
  exists (keyOf (in_source_lang body) tl t).
  subst s. rewrite Htl. unfold translateWith. cbn [fst snd] in Hhit.
  now rewrite Hhit.
Qed.

Lemma public_default_serves_repeat_witness :
  isPrivate {| TOKEN := None; DL_SESSION := None |} = false /\
  Result.code (fst (deeplxTranslate (sample_world (sample_response 200)) None "JA"
                      (Some "hello") EmptyString true fresh)) = 200 /\
  Result.cached (fst (deeplxTranslate (sample_world (sample_response 200)) None "JA"
                        (Some "hello") EmptyString true fresh)) = false /\
  exists key,
    handleTranslateRequest (sample_world (sample_response 429))
      {| in_text := Some "hello"; in_source_lang := None; in_target_lang := Some "JA";
         in_cache := None |}
      {| TOKEN := None; DL_SESSION := None |}
      (settle (snd (deeplxTranslate (sample_world (sample_response 200)) None "JA"
                      (Some "hello") EmptyString true fresh)))
    = Returned
        (simpleReply
           (Result.set_cached true
              (fst (deeplxTranslate (sample_world (sample_response 200)) None "JA"
                      (Some "hello") EmptyString true fresh))),
         log (CacheMatch key)
           (settle (snd (deeplxTranslate (sample_world (sample_response 200)) None "JA"
                           (Some "hello") EmptyString true fresh)))).
Proof.
  split; [reflexivity|]. split; [reflexivity|]. split; [reflexivity|].
  apply (public_default_serves_repeat (sample_world (sample_response 200))
           (sample_world (sample_response 429))
           {| TOKEN := None; DL_SESSION := None |} fresh _
           {| in_text := Some "hello"; in_source_lang := None; in_target_lang := Some "JA";
              in_cache := None |} _ eq_refl eq_refl);
    [|reflexivity|reflexivity].
  unfold handleTranslateRequest, translateWith. cbn [in_cache in_target_lang in_text in_source_lang cacheChoice isPrivate TOKEN negb].
  now destruct (deeplxTranslate _ _ _ _ _ _ _).
Defined.

(** ** One cache for all endpoints *)

(** The cache key does not tell the endpoints apart.  Take a body that
    asks for the cache ([cache] is [true]).  A fresh success of
    [/translate] on it always has method ["Free"], even with a session
    configured; once its store has completed, the same body sent to
    [/v1/translate] with a session configured is answered from the cache
    with that very result, method ["Free"] included, and without any
    backend call. *)
Theorem cache_shared_across_endpoints (w1 w2 : World) (env1 env2 : Env) (st st1 : State)
    (body : TranslateBody) (r1 : Result.t) :
  in_cache body = Some true ->
  handleTranslateRequest w1 body env1 st = Returned (simpleReply r1, st1) ->
  Result.code r1 = 200 ->
  Result.cached r1 = false ->
  sessionOf env2 <> EmptyString ->
  Result.method r1 = Some "Free" /\
  exists key,
    v1Translate w2 body env2 (settle st1)
    = Returned (simpleReply (Result.set_cached true r1),
                log (CacheMatch key) (settle st1)) /\
    Result.method (Result.set_cached true r1) = Some "Free".
Proof.
  intros Hc. unfold handleTranslateRequest, v1Translate. rewrite Hc. cbn [cacheChoice].
  destruct (translateWith w1 _ _ _ _ _ _) as [[r s]|] eqn:E; [|discriminate].
  intros [= <- <-] Hcode Hfresh Hs. subst s.
  destruct (String.eqb_spec (sessionOf env2) EmptyString) as [E2|_]; [contradiction|].
  apply translateWith_returned in E as [(tl & Htl & E) | (_ & -> & _)];
    [|discriminate Hcode].
  pose proof (deeplxTranslate_outcome w1 (in_source_lang body) tl (in_text body)
                EmptyString true st) as Ho.
  rewrite E in Ho.
  destruct (outcome_fresh_success _ _ _ _ _ _ _ _ _ Ho Hcode Hfresh)
    as (t0 & _ & _ & Hm & _).
  destruct (stored_then_hit w1 w2 _ _ _ (sessionOf env2) _ _ _ _ Ho Hcode Hfresh)
    as (t & _ & Hhit).
  cbn [fst snd] in Hhit, Hm. split; [exact Hm|].
  exists (keyOf (in_source_lang body) tl t).
  rewrite Htl. unfold translateWith. rewrite Hhit. split; [reflexivity | exact Hm].
Qed.

Lemma cache_shared_across_endpoints_witness :
  Result.code (fst (deeplxTranslate (sample_world (sample_response 200)) None "JA"
                      (Some "hello") EmptyString true fresh)) = 200 /\
  Result.cached (fst (deeplxTranslate (sample_world (sample_response 200)) None "JA"
                        (Some "hello") EmptyString true fresh)) = false /\
  sessionOf {| TOKEN := None; DL_SESSION := Some "pro-session" |} <> EmptyString /\
  Result.method (fst (deeplxTranslate (sample_world (sample_response 200)) None "JA"
                        (Some "hello") EmptyString true fresh)) = Some "Free" /\
  exists key,
    v1Translate (sample_world (sample_response 429))
      {| in_text := Some "hello"; in_source_lang := None; in_target_lang := Some "JA";
         in_cache := Some true |}
      {| TOKEN := None; DL_SESSION := Some "pro-session" |}
      (settle (snd (deeplxTranslate (sample_world (sample_response 200)) None "JA"
                      (Some "hello") EmptyString true fresh)))
    = Returned
        (simpleReply
           (Result.set_cached true
              (fst (deeplxTranslate (sample_world (sample_response 200)) None "JA"
                      (Some "hello") EmptyString true fresh))),
         log (CacheMatch key)
           (settle (snd (deeplxTranslate (sample_world (sample_response 200)) None "JA"
                           (Some "hello") EmptyString true fresh)))).
Proof.
  assert (Hs : sessionOf {| TOKEN := None; DL_SESSION := Some "pro-session" |}
               <> EmptyString) by discriminate.
  split; [reflexivity|]. split; [reflexivity|]. split; [exact Hs|].
  destruct (cache_shared_across_endpoints (sample_world (sample_response 200))
              (sample_world (sample_response 429))
              {| TOKEN := None; DL_SESSION := None |}
              {| TOKEN := None; DL_SESSION := Some "pro-session" |} fresh
              (snd (deeplxTranslate (sample_world (sample_response 200)) None "JA"
                      (Some "hello") EmptyString true fresh))
              {| in_text := Some "hello"; in_source_lang := None;
                 in_target_lang := Some "JA"; in_cache := Some true |}
              (fst (deeplxTranslate (sample_world (sample_response 200)) None "JA"
                      (Some "hello") EmptyString true fresh))
              eq_refl)
    as (Hm & key & Hv1 & _); [| reflexivity | reflexivity | exact Hs |].
  - unfold handleTranslateRequest, translateWith.
    cbn [in_cache in_target_lang in_text in_source_lang cacheChoice].
    now destruct (deeplxTranslate _ _ _ _ _ _ _).
  - split; [exact Hm|]. exists key. exact Hv1.
Defined.

(** ** The official shape *)

(** A reply of [/v2/translate] is either status 200 in the official shape
    or another status in the simple shape, with that status as its code;
    both carry the JSON content type.  An official reply that is not
    marked as cached reports the backend's source language and the first
    translated text of an answer to the joined text, asked with source
    language ["EN"]. *)
Theorem v2_reply_shape (w : World) (env : Env) (st st' : State)
    (body : OfficialBody) (reply : Reply) :
  v2Translate w body env st = Returned (reply, st') ->
  reply_headers reply = json_headers /\
  ((reply_status reply = 200 /\
    exists d t c, reply_body reply = OfficialShape d t c /\
      (c = false ->
       exists tl joined response resultJson res t0 rest,
         v2_target_lang body = Some tl /\
         joinedText (v2_text body) = Some joined /\
         finalSourceLang (Some "auto") = "EN" /\
         backend w (requestOf w (Some "auto") tl joined EmptyString)
           = Responded response /\
         body_json response = JsonValue resultJson /\
         result resultJson = Some res /\
         texts res = Some (t0 :: rest) /\
         d = lang res /\ t = Some (text t0))) \/
   (reply_status reply <> 200 /\
    exists r, reply_body reply = SimpleShape r /\ Result.code r = reply_status reply)).
Proof.
  unfold v2Translate.
  set (useCache := cacheChoice (v2_cache body) (negb (isPrivate env))).
  destruct (translateWith _ _ _ _ _ _ _) as [[r s]|] eqn:E; [|discriminate].
  destruct (Z.eqb_spec (Result.code r) 200) as [Hcode|Hcode]; intros [= <- <-].
  - split; [reflexivity|]. left. split; [reflexivity|].
    exists (Result.source_lang r), (Result.data r), (Result.cached r).
    split; [reflexivity|]. intros Hfresh.
    apply translateWith_returned in E as [(tl & Htl & E) | (_ & -> & _)];
      [|discriminate Hcode].
    pose proof (deeplxTranslate_outcome w (Some "auto") tl (joinedText (v2_text body))
                  EmptyString useCache st) as Ho.
    rewrite E in Ho. cbn [fst snd] in Ho.
    inversion Ho as [text Hno | t e Ht Huc Hlook | t msg Ht Hmiss Hb
                     | t response r' success Ht Hmiss Hb Hi]; subst;
      try discriminate.
    pose proof (interpret_fresh _ _ _ _ _ _ Hi) as [_ Hs].
    apply Hs in Hcode. subst success.
    destruct (interpret_success_inv _ _ _ _ _ Hi)
      as (p & res & t0 & rest & _ & Hj & _ & Hr & Hts & ->).
    exists tl, t, response, p, res, t0, rest. repeat split; auto.
  - split; [reflexivity|]. right. split; [exact Hcode|].
    exists r. split; reflexivity.
Qed.

Lemma v2_reply_shape_witness :
  match v2Translate (sample_world (sample_response 200))
          {| v2_text := Some (TextArray ["Hello"; "World"]); v2_target_lang := Some "de";
             v2_cache := Some false |}
          {| TOKEN := None; DL_SESSION := None |} fresh with
  | Returned (reply, _) =>
      reply_headers reply = json_headers /\
      reply_status reply = 200 /\
      reply_body reply = OfficialShape (Some "EN") (Some "Hallo Welt") false
  | Raised => False
  end.
Proof.
  destruct (v2Translate (sample_world (sample_response 200))
              {| v2_text := Some (TextArray ["Hello"; "World"]);
                 v2_target_lang := Some "de"; v2_cache := Some false |}
              {| TOKEN := None; DL_SESSION := None |} fresh)
    as [[reply st']|] eqn:E; [|vm_compute in E; discriminate E].
  destruct (v2_reply_shape _ _ _ _ _ _ E) as [Hh _].
  split; [exact Hh|].
  vm_compute in E. injection E as <- _. split; reflexivity.
Defined.

(** ** The marker count of a joined text *)

Lemma count_char_join_newline (items : list string) :
  count_char "i" (join newline items)
  = fold_right Nat.add O (map (count_char "i") items).
Proof.
  induction items as [|x [|y l] IH]; [reflexivity | simpl; lia |].
  change (join newline (x :: y :: l)) with (x +:+ newline +:+ join newline (y :: l)).
  rewrite !count_char_append, IH. reflexivity.
Qed.

(** The texts of a [/v2/translate] array are joined with line feeds into
    one text, and the marker count of that text, from which the timestamp
    of the single backend call is derived, is the sum of the marker counts
    of the items: the separators add nothing. *)
Theorem getICount_joined (items : list string) :
  joinedText (Some (TextArray items)) = Some (join newline items) /\
  getICount (join newline items) = fold_right Z.add 0 (map getICount items).
Proof.
  split; [reflexivity|].
  assert (H : forall s, getICount s = Z.of_nat (count_char "i" s)).
  { intros s. unfold getICount. rewrite split_length. lia. }
  rewrite H, count_char_join_newline.
  induction items as [|x l IH]; [reflexivity|].
  cbn [map fold_right]. rewrite Nat2Z.inj_add, IH, H. reflexivity.
Qed.
